(** * HRV percentile calculator: a shallow embedding of [hrv_analysis.py]

    The three functions of the module ([get_hrv_percentile],
    [get_5th_percentile_value], [get_normative_range]) are embedded with the
    control flow of the source: nested dictionary literals, [str.lower],
    [dict.get], subscripting inside [try ... except KeyError], and the
    arithmetic that follows.

    Modelling choices.
    - Python [float] values are real numbers ([R]); the arithmetic of the
      source is read as exact arithmetic.  Python [int] values are [Z].
      Where a property of the program turns on what the reals do not have
      (NaN, rounding), it is settled on [percentile_arithmetic64], the
      arithmetic of lines 156-179 on binary64 values.
    - [scipy.stats] is not part of the repository.  Its three entry points
      used by the source ([norm.cdf], [norm.ppf], [t.ppf]) are the fields of
      the record [scipy_stats]; what a theorem needs of them is stated as an
      explicit hypothesis of that theorem.
    - Strings are byte strings.  [lower] folds the ASCII letters only; the
      source compares lowered strings against ASCII literals without the
      letter k, for which Python's Unicode [str.lower] and the ASCII fold
      agree.
    - A returned f-string that interpolates computed numbers is kept as the
      record of the interpolated values; literal messages are kept as
      strings.
    - The entry block ([if __name__ == '__main__']) is embedded as the
      function [main] from the argument list and the lines of standard
      input to the list of the printed items; the built-ins it calls are
      parameters. *)

From Stdlib Require Import Floats.
From Stdlib Require Import Reals Lra Lia ZArith List String Ascii Bool.
Import ListNotations.

Local Open Scope string_scope.
Local Open Scope Z_scope.
Local Open Scope R_scope.

(** ** Python values, exceptions and dictionaries *)

Inductive exn : Type :=
| KeyError
| TypeError
| ValueError
| ZeroDivisionError.

(** The outcome of evaluating a Python expression or function body. *)
Inductive py (A : Type) : Type :=
| Return (a : A)
| Raise (e : exn).

Arguments Return {A} a.
Arguments Raise {A} e.

Definition bind {A B : Type} (m : py A) (k : A -> py B) : py B :=
  match m with
  | Return a => k a
  | Raise e => Raise e
  end.

Notation "x <- m ;; k" := (bind m (fun x => k))
  (at level 61, m at next level, right associativity).

#[local] Set Warnings "-register-all".

Inductive pyval : Type :=
| VInt (n : Z)
| VFloat (x : R)
| VDict (d : list (string * pyval)).

Definition dict : Type := list (string * pyval).

Fixpoint lookup (d : dict) (k : string) : option pyval :=
  match d with
  | [] => None
  | (k', v) :: d' => if String.eqb k' k then Some v else lookup d' k
  end.

(** [d[k]]: a missing key raises [KeyError]; a number is not subscriptable. *)
Definition subscript (v : pyval) (k : string) : py pyval :=
  match v with
  | VDict d =>
      match lookup d k with
      | Some x => Return x
      | None => Raise KeyError
      end
  | VInt _ | VFloat _ => Raise TypeError
  end.

(** [d.get(k, default)] on a dictionary of strings. *)
Fixpoint dict_get (d : list (string * string)) (k default : string) : string :=
  match d with
  | [] => default
  | (k', v) :: d' => if String.eqb k' k then v else dict_get d' k default
  end.

(** A number used in float arithmetic: an [int] is converted, a dictionary
    is a [TypeError]. *)
Definition as_float (v : pyval) : py R :=
  match v with
  | VInt n => Return (IZR n)
  | VFloat x => Return x
  | VDict _ => Raise TypeError
  end.

(** ** [str.lower] *)

Definition lower_ascii (c : ascii) : ascii :=
  let n := N_of_ascii c in
  if (65 <=? n)%N && (n <=? 90)%N then ascii_of_N (n + 32) else c.

Fixpoint lower (s : string) : string :=
  match s with
  | EmptyString => EmptyString
  | String c s' => String (lower_ascii c) (lower s')
  end.

(** [x in xs] for a list of strings. *)
Fixpoint str_in (x : string) (xs : list string) : bool :=
  match xs with
  | [] => false
  | y :: ys => String.eqb x y || str_in x ys
  end.

(** ** [scipy.stats] *)

Record scipy_stats : Type := {
  norm_cdf : R -> R;          (* st.norm.cdf(x) *)
  norm_ppf : R -> R;          (* st.norm.ppf(q) *)
  t_ppf : R -> Z -> R         (* st.t.ppf(q, df) *)
}.

(** ** The normative tables *)

Definition entry (mean sd : pyval) : pyval :=
  VDict [("mean", mean); ("sd", sd)].

(** The literal of [get_hrv_percentile] (source lines 47-112). *)
Definition hrv_norms : pyval :=
  VDict [
    ("female", VDict [
      ("25-34", VDict [("sdNN", entry (VFloat 45.4) (VFloat 18.0));
                       ("RMSSD", entry (VFloat 36.1) (VFloat 18.4));
                       ("HF", entry (VInt 161) (VInt 167));
                       ("n", VInt 208)]);
      ("35-44", VDict [("sdNN", entry (VFloat 42.1) (VFloat 16.8));
                       ("RMSSD", entry (VFloat 30.7) (VFloat 15.1));
                       ("HF", entry (VInt 121) (VInt 145));
                       ("n", VInt 259)]);
      ("45-54", VDict [("sdNN", entry (VFloat 36.6) (VFloat 14.7));
                       ("RMSSD", entry (VFloat 24.5) (VFloat 12.3));
                       ("HF", entry (VInt 62) (VInt 83));
                       ("n", VInt 158)]);
      ("55-64", VDict [("sdNN", entry (VFloat 32.2) (VFloat 13.5));
                       ("RMSSD", entry (VFloat 20.3) (VFloat 10.8));
                       ("HF", entry (VInt 35) (VInt 53));
                       ("n", VInt 95)]);
      ("65-74", VDict [("sdNN", entry (VFloat 31.6) (VFloat 13.6));
                       ("RMSSD", entry (VFloat 19.4) (VFloat 10.1));
                       ("HF", entry (VInt 29) (VInt 38));
                       ("n", VInt 62)])]);
    ("male", VDict [
      ("25-34", VDict [("sdNN", entry (VFloat 49.9) (VFloat 19.8));
                       ("RMSSD", entry (VFloat 36.2) (VFloat 18.1));
                       ("HF", entry (VInt 133) (VInt 174));
                       ("n", VInt 330)]);
      ("35-44", VDict [("sdNN", entry (VFloat 44.8) (VFloat 18.1));
                       ("RMSSD", entry (VFloat 30.6) (VFloat 15.4));
                       ("HF", entry (VInt 89) (VInt 118));
                       ("n", VInt 292)]);
      ("45-54", VDict [("sdNN", entry (VFloat 41.3) (VFloat 17.6));
                       ("RMSSD", entry (VFloat 26.8) (VFloat 13.7));
                       ("HF", entry (VInt 41) (VInt 49));
                       ("n", VInt 235)]);
      ("55-64", VDict [("sdNN", entry (VFloat 38.3) (VFloat 17.0));
                       ("RMSSD", entry (VFloat 23.4) (VFloat 12.0));
                       ("HF", entry (VInt 29) (VInt 38));
                       ("n", VInt 183)]);
      ("65-74", VDict [("sdNN", entry (VFloat 34.9) (VFloat 15.9));
                       ("RMSSD", entry (VFloat 21.1) (VFloat 11.0));
                       ("HF", entry (VInt 22) (VInt 29));
                       ("n", VInt 84)])])].

(** The literal shared, character for character, by
    [get_5th_percentile_value] (source lines 206-221) and
    [get_normative_range] (lines 246-261): the same entries, without the
    ["n"] keys. *)
Definition hrv_norms_range : pyval :=
  VDict [
    ("female", VDict [
      ("25-34", VDict [("sdNN", entry (VFloat 45.4) (VFloat 18.0));
                       ("RMSSD", entry (VFloat 36.1) (VFloat 18.4));
                       ("HF", entry (VInt 161) (VInt 167))]);
      ("35-44", VDict [("sdNN", entry (VFloat 42.1) (VFloat 16.8));
                       ("RMSSD", entry (VFloat 30.7) (VFloat 15.1));
                       ("HF", entry (VInt 121) (VInt 145))]);
      ("45-54", VDict [("sdNN", entry (VFloat 36.6) (VFloat 14.7));
                       ("RMSSD", entry (VFloat 24.5) (VFloat 12.3));
                       ("HF", entry (VInt 62) (VInt 83))]);
      ("55-64", VDict [("sdNN", entry (VFloat 32.2) (VFloat 13.5));
                       ("RMSSD", entry (VFloat 20.3) (VFloat 10.8));
                       ("HF", entry (VInt 35) (VInt 53))]);
      ("65-74", VDict [("sdNN", entry (VFloat 31.6) (VFloat 13.6));
                       ("RMSSD", entry (VFloat 19.4) (VFloat 10.1));
                       ("HF", entry (VInt 29) (VInt 38))])]);
    ("male", VDict [
      ("25-34", VDict [("sdNN", entry (VFloat 49.9) (VFloat 19.8));
                       ("RMSSD", entry (VFloat 36.2) (VFloat 18.1));
                       ("HF", entry (VInt 133) (VInt 174))]);
      ("35-44", VDict [("sdNN", entry (VFloat 44.8) (VFloat 18.1));
                       ("RMSSD", entry (VFloat 30.6) (VFloat 15.4));
                       ("HF", entry (VInt 89) (VInt 118))]);
      ("45-54", VDict [("sdNN", entry (VFloat 41.3) (VFloat 17.6));
                       ("RMSSD", entry (VFloat 26.8) (VFloat 13.7));
                       ("HF", entry (VInt 41) (VInt 49))]);
      ("55-64", VDict [("sdNN", entry (VFloat 38.3) (VFloat 17.0));
                       ("RMSSD", entry (VFloat 23.4) (VFloat 12.0));
                       ("HF", entry (VInt 29) (VInt 38))]);
      ("65-74", VDict [("sdNN", entry (VFloat 34.9) (VFloat 15.9));
                       ("RMSSD", entry (VFloat 21.1) (VFloat 11.0));
                       ("HF", entry (VInt 22) (VInt 29))])])].

(** [metric_mapping], the same literal in the three functions. *)
Definition metric_mapping : list (string * string) :=
  [("sdnn", "sdNN"); ("rmssd", "RMSSD"); ("hf", "HF")].

(** The [if]/[elif] chain on [age]; [None] is the [else] branch. *)
Definition age_group_of (age : Z) : option string :=
  if (25 <=? age)%Z && (age <=? 34)%Z then Some "25-34"
  else if (35 <=? age)%Z && (age <=? 44)%Z then Some "35-44"
  else if (45 <=? age)%Z && (age <=? 54)%Z then Some "45-54"
  else if (55 <=? age)%Z && (age <=? 64)%Z then Some "55-64"
  else if (65 <=? age)%Z && (age <=? 74)%Z then Some "65-74"
  else None.

(** Python's [max(a, b)]: the first argument unless the second is greater. *)
Definition py_max (a b : R) : R := if Rlt_dec a b then b else a.

(** [try: body; except KeyError: handler]. *)
Definition try_except_KeyError {A : Type} (body : py A) (handler : py A) : py A :=
  match body with
  | Raise KeyError => handler
  | other => other
  end.

(** ** [get_5th_percentile_value] *)

Definition get_5th_percentile_value (st : scipy_stats)
    (age : Z) (gender hrv_metric : string) : py (option R) :=
  match age_group_of age with
  | None => Return None
  | Some age_group =>
      let gender := lower gender in
      let normalized_metric := dict_get metric_mapping (lower hrv_metric) hrv_metric in
      try_except_KeyError
        (by_gender <- subscript hrv_norms_range gender ;;
         by_age <- subscript by_gender age_group ;;
         data <- subscript by_age normalized_metric ;;
         let z_score_5th := norm_ppf st 0.05 in
         mean <- subscript data "mean" ;;
         sd <- subscript data "sd" ;;
         mean <- as_float mean ;;
         sd <- as_float sd ;;
         let percentile_5th_value := mean + z_score_5th * sd in
         Return (Some (py_max 0 percentile_5th_value)))
        (Return None)
  end.

(** ** [get_normative_range] *)

(** The values interpolated in the returned f-string
    ["{hrv_metric} normative range (5th-95th percentile): {percentile_5th:.1f} - {percentile_95th:.1f}"]. *)
Record normative_range : Type := {
  range_metric : string;
  percentile_5th : R;
  percentile_95th : R
}.

Definition get_normative_range (st : scipy_stats)
    (age : Z) (gender hrv_metric : string) : py (option normative_range) :=
  match age_group_of age with
  | None => Return None
  | Some age_group =>
      let gender := lower gender in
      let normalized_metric := dict_get metric_mapping (lower hrv_metric) hrv_metric in
      try_except_KeyError
        (by_gender <- subscript hrv_norms_range gender ;;
         by_age <- subscript by_gender age_group ;;
         data <- subscript by_age normalized_metric ;;
         mean <- subscript data "mean" ;;
         sd <- subscript data "sd" ;;
         let z_5th := norm_ppf st 0.05 in
         let z_95th := norm_ppf st 0.95 in
         mean <- as_float mean ;;
         sd <- as_float sd ;;
         let percentile_5th := mean + z_5th * sd in
         let percentile_95th := mean + z_95th * sd in
         let percentile_5th :=
           if str_in normalized_metric ["RMSSD"; "HF"] then
             let min_threshold :=
               if String.eqb normalized_metric "RMSSD" then 1.0 else 5.0 in
             py_max min_threshold percentile_5th
           else
             py_max 0.1 percentile_5th in
         Return (Some {| range_metric := hrv_metric;
                         percentile_5th := percentile_5th;
                         percentile_95th := percentile_95th |}))
        (Return None)
  end.

(** ** [get_hrv_percentile] *)

(** The values interpolated in the f-string returned on success; [warning]
    records whether the small-sample line is appended. *)
Record percentile_report : Type := {
  report_age : Z;
  report_gender : string;
  report_metric : string;
  report_value : R;
  percentile : R;
  percentile_lower : R;
  percentile_upper : R;
  sample_size : Z;
  reliability : string;
  warning : bool
}.

(** What [get_hrv_percentile] returns: a literal message or the report. *)
Inductive hrv_result : Type :=
| Message (s : string)
| Report (r : percentile_report).

Definition age_error : string :=
  "Error: Age is outside the study's range (25-74 years).".

Definition gender_error : string :=
  "Error: Gender must be 'male' or 'female'.".

Definition sd_zero_error : string :=
  "Error: Standard deviation is zero, cannot calculate percentile.".

Definition metric_error (hrv_metric gender age_group : string) : string :=
  "Error: The metric '" ++ hrv_metric ++ "' is not available for the "
  ++ gender ++ " " ++ age_group ++ " age group in this script. "
  ++ "Please add it from the source paper.".

(** An [int] taken from the table; the table holds no other kind of [n]. *)
Definition as_int (v : pyval) : py Z :=
  match v with
  | VInt n => Return n
  | VFloat _ | VDict _ => Raise TypeError
  end.

(** [a / b] on floats. *)
Definition py_div (a b : R) : py R :=
  if Req_dec_T b 0 then Raise ZeroDivisionError else Return (a / b).

(** [math.sqrt] of an [int]. *)
Definition math_sqrt (n : Z) : py R :=
  if (n <? 0)%Z then Raise ValueError else Return (sqrt (IZR n)).

(** The [if]/[elif] chain on [n] (source lines 182-189). *)
Definition reliability_of (n : Z) : string :=
  if (n <? 50)%Z then "Low"
  else if (n <? 100)%Z then "Moderate"
  else if (n <? 200)%Z then "Good"
  else "High".

Definition get_hrv_percentile (st : scipy_stats)
    (age : Z) (gender hrv_metric : string) (user_value : R) : py hrv_result :=
  match age_group_of age with
  | None => Return (Message age_error)
  | Some age_group =>
      let gender := lower gender in
      if negb (str_in gender ["male"; "female"]) then
        Return (Message gender_error)
      else
        let normalized_metric :=
          dict_get metric_mapping (lower hrv_metric) hrv_metric in
        let looked_up :=
          try_except_KeyError
            (by_gender <- subscript hrv_norms gender ;;
             group_data <- subscript by_gender age_group ;;
             metric_data <- subscript group_data normalized_metric ;;
             mean <- subscript metric_data "mean" ;;
             sd <- subscript metric_data "sd" ;;
             n <- subscript group_data "n" ;;
             Return (inr (mean, sd, n)))
            (Return (inl (metric_error hrv_metric gender age_group))) in
        found <- looked_up ;;
        match found with
        | inl msg => Return (Message msg)
        | inr (mean, sd, n) =>
            mean <- as_float mean ;;
            sd <- as_float sd ;;
            n <- as_int n ;;
            if Req_dec_T sd 0 then Return (Message sd_zero_error)
            else
              z_score <- py_div (user_value - mean) sd ;;
              let percentile := norm_cdf st z_score * 100 in
              root <- math_sqrt n ;;
              sem <- py_div sd root ;;
              let df := (n - 1)%Z in
              let t_critical := t_ppf st 0.975 df in
              let ci_lower_mean := mean - t_critical * sem in
              let ci_upper_mean := mean + t_critical * sem in
              z_lower <- py_div (user_value - ci_upper_mean) sd ;;
              z_upper <- py_div (user_value - ci_lower_mean) sd ;;
              let percentile_lower := norm_cdf st z_lower * 100 in
              let percentile_upper := norm_cdf st z_upper * 100 in
              let reliability := reliability_of n in
              Return (Report {| report_age := age;
                                report_gender := gender;
                                report_metric := hrv_metric;
                                report_value := user_value;
                                percentile := percentile;
                                percentile_lower := percentile_lower;
                                percentile_upper := percentile_upper;
                                sample_size := n;
                                reliability := reliability;
                                warning := (n <? 100)%Z |})
        end
  end.

(** ** Lines 156-179 in binary64

    The arithmetic of [get_hrv_percentile] after the table lookup, on IEEE
    754 binary64 values with the operations of Python's [float]: every
    operation rounds to nearest even, NaN propagates, and a comparison with
    NaN is false. *)

#[local] Set Warnings "-inexact-float".

Record scipy_stats64 : Type := {
  norm_cdf64 : float -> float;       (* st.norm.cdf(x) *)
  t_ppf64 : float -> Z -> float      (* st.t.ppf(q, df) *)
}.

(** The three numbers the report interpolates. *)
Record percentiles64 : Type := {
  percentile64 : float;
  percentile_lower64 : float;
  percentile_upper64 : float
}.

(** An [int] used in float arithmetic (exact for the sample sizes). *)
Definition float_of_int (n : Z) : float := PrimFloat.of_uint63 (Uint63.of_Z n).

Definition percentile_arithmetic64 (st : scipy_stats64)
    (mean sd : float) (n : Z) (user_value : float) : percentiles64 :=
  let z_score := ((user_value - mean) / sd)%float in
  let percentile := (norm_cdf64 st z_score * 100)%float in
  let sem := (sd / PrimFloat.sqrt (float_of_int n))%float in
  let df := (n - 1)%Z in
  let t_critical := t_ppf64 st 0.975%float df in
  let ci_lower_mean := (mean - t_critical * sem)%float in
  let ci_upper_mean := (mean + t_critical * sem)%float in
  let z_lower := ((user_value - ci_upper_mean) / sd)%float in
  let z_upper := ((user_value - ci_lower_mean) / sd)%float in
  let percentile_lower := (norm_cdf64 st z_lower * 100)%float in
  let percentile_upper := (norm_cdf64 st z_upper * 100)%float in
  {| percentile64 := percentile;
     percentile_lower64 := percentile_lower;
     percentile_upper64 := percentile_upper |}.

(** ** The program entry ([if __name__ == '__main__'], source lines 301-401)

    What the block prints is kept as the list of the printed items, in
    order.  The built-ins [int], [float] and [str.strip] are parameters
    ([None] stands for their [ValueError]); standard input is the list of
    the lines still to be read, and [input] on an empty list is Python's
    [EOFError].  [KeyboardInterrupt], which can arrive at any point, is not
    modelled. *)

Record builtins : Type := {
  py_int : string -> option Z;       (* int(s) *)
  py_float : string -> option R;     (* float(s) *)
  strip : string -> string           (* s.strip() *)
}.

(** What leaves a [try] block other than a value. *)
Inductive signal : Type :=
| Exc (e : exn)
| EOFError
| SystemExit.

Inductive outcome (A : Type) : Type :=
| Done (a : A)
| Stop (s : signal).

Arguments Done {A} a.
Arguments Stop {A} s.

Inductive printed : Type :=
| Text (s : string)                   (* print of a literal or plain f-string *)
| Result (r : hrv_result)             (* print(result) *)
| Fifth (label : string) (x : R)      (* f"{label} 5th percentile: {x:.1f}" *)
| Prompt (s : string)                 (* the prompt written by input(s) *)
| ErrorLine (s : signal).             (* f"An error occurred: {e}" *)

(** Printing code that may stop early: the items printed so far and how it
    ended. *)
Definition out (A : Type) : Type := (list printed * outcome A)%type.

Definition out_ret {A : Type} (a : A) : out A := ([], Done a).

Definition out_bind {A B : Type} (m : out A) (k : A -> out B) : out B :=
  match m with
  | (o, Done a) => let (o', r) := k a in ((o ++ o')%list, r)
  | (o, Stop s) => (o, Stop s)
  end.

Notation "x <~ m ;; k" := (out_bind m (fun x => k))
  (at level 61, m at next level, right associativity).

Definition print (p : printed) : out unit := ([p], Done tt).

Definition run {A : Type} (m : py A) : out A :=
  match m with
  | Return a => ([], Done a)
  | Raise e => ([], Stop (Exc e))
  end.

(** A built-in that parses: [None] is its [ValueError]. *)
Definition parsed {A : Type} (x : option A) : out A :=
  match x with
  | Some a => ([], Done a)
  | None => ([], Stop (Exc ValueError))
  end.

(** [s * n] on strings. *)
Fixpoint str_mul (s : string) (n : nat) : string :=
  match n with
  | O => EmptyString
  | S n' => s ++ str_mul s n'
  end.

Definition newline : string := String "010"%char EmptyString.

(** [if v: print(f"{label} 5th percentile: {v:.1f}")]: [None] and zero are
    false. *)
Definition print_if_truthy (label : string) (v : option R) : out unit :=
  match v with
  | Some x => if Req_dec_T x 0 then out_ret tt else print (Fifth label x)
  | None => out_ret tt
  end.

(** The section printed last by both branches (lines 327-335 and 385-393). *)
Definition fifth_percentile_section (st : scipy_stats)
    (age : Z) (gender : string) : out unit :=
  _ <~ print (Text (newline ++ "5th Percentile Values:")) ;;
  _ <~ print (Text (str_mul "-" 25)) ;;
  sdnn_5th <~ run (get_5th_percentile_value st age gender "sdNN") ;;
  rmssd_5th <~ run (get_5th_percentile_value st age gender "RMSSD") ;;
  hf_5th <~ run (get_5th_percentile_value st age gender "HF") ;;
  _ <~ print_if_truthy "sdNN" sdnn_5th ;;
  _ <~ print_if_truthy "RMSSD" rmssd_5th ;;
  print_if_truthy "HF" hf_5th.

Definition usage : string :=
  "Usage: python3 hrv_analysis.py <age> <gender> <sdNN> <RMSSD> [HF]".

(** The [try] body of the command-line branch (lines 305-335). *)
Definition cli_body (bi : builtins) (st : scipy_stats) (argv : list string)
  : out unit :=
  age <~ parsed (py_int bi (nth 1 argv "")) ;;
  let gender := nth 2 argv "" in
  sdnn_value <~ parsed (py_float bi (nth 3 argv "")) ;;
  rmssd_value <~ parsed (py_float bi (nth 4 argv "")) ;;
  _ <~ print (Text "HRV Percentile Calculator") ;;
  _ <~ print (Text (str_mul "=" 25)) ;;
  result1 <~ run (get_hrv_percentile st age gender "sdNN" sdnn_value) ;;
  _ <~ print (Result result1) ;;
  result2 <~ run (get_hrv_percentile st age gender "RMSSD" rmssd_value) ;;
  _ <~ print (Result result2) ;;
  _ <~ (if (6 <=? List.length argv)%nat then
          hf_value <~ parsed (py_float bi (nth 5 argv "")) ;;
          result3 <~ run (get_hrv_percentile st age gender "HF" hf_value) ;;
          print (Result result3)
        else out_ret tt) ;;
  fifth_percentile_section st age gender.

(** The command-line branch with its handlers (lines 304-342). *)
Definition main_cli (bi : builtins) (st : scipy_stats) (argv : list string)
  : list printed :=
  match cli_body bi st argv with
  | (o, Done _) => o
  | (o, Stop (Exc ValueError)) =>
      (o ++ [Text "Error: Please provide valid numeric values"; Text usage])%list
  | (o, Stop SystemExit) => o
  | (o, Stop s) => (o ++ [ErrorLine s])%list
  end.

(** ** The interactive branch (source lines 343-401) *)

Definition age_prompt : string := "Enter your age (25-74): ".

Definition gender_prompt : string := "Enter your gender (male/female): ".

Definition metric_prompt : string :=
  "Enter HRV metric name (or 'done' to finish): ".

Definition value_prompt (metric : string) : string :=
  "Enter your " ++ metric ++ " value: ".

(** [if metric:] on a string. *)
Definition nonempty (s : string) : bool :=
  match s with
  | EmptyString => false
  | String _ _ => true
  end.

(** The [while True] loop that fills [metrics_to_calculate] (lines
    360-371): what it prints, the lines it leaves unread, and the list it
    ends with (or the [EOFError] of an exhausted input). *)
Fixpoint read_metrics (bi : builtins) (metrics_to_calculate : list (string * R))
    (stdin : list string) {struct stdin}
  : list printed * list string * outcome (list (string * R)) :=
  match stdin with
  | [] => ([Prompt metric_prompt], [], Stop EOFError)
  | line :: rest =>
      let metric := strip bi line in
      if String.eqb (lower metric) "done" then
        ([Prompt metric_prompt], rest, Done metrics_to_calculate)
      else if nonempty metric then
        match rest with
        | [] =>
            ([Prompt metric_prompt; Prompt (value_prompt metric)], [], Stop EOFError)
        | answer :: rest' =>
            match py_float bi answer with
            | Some value =>
                let '(o, unread, r) :=
                  read_metrics bi (metrics_to_calculate ++ [(metric, value)])%list rest' in
                (Prompt metric_prompt :: Prompt (value_prompt metric) :: o, unread, r)
            | None =>
                let '(o, unread, r) := read_metrics bi metrics_to_calculate rest' in
                (Prompt metric_prompt :: Prompt (value_prompt metric)
                   :: Text "Invalid value. Please enter a number." :: o, unread, r)
            end
        end
      else
        let '(o, unread, r) := read_metrics bi metrics_to_calculate rest in
        (Prompt metric_prompt :: o, unread, r)
  end.

(** The [for] loop that prints one result per entered metric (lines
    381-383). *)
Fixpoint print_results (st : scipy_stats) (age : Z) (gender : string)
    (metrics : list (string * R)) : out unit :=
  match metrics with
  | [] => out_ret tt
  | (metric, value) :: rest =>
      result <~ run (get_hrv_percentile st age gender metric value) ;;
      _ <~ print (Result result) ;;
      print_results st age gender rest
  end.

(** From [print("\nResults:")] to the end of the [try] block (lines
    377-393). *)
Definition report_batch (st : scipy_stats) (age : Z) (gender : string)
    (metrics : list (string * R)) : out unit :=
  _ <~ print (Text (newline ++ "Results:")) ;;
  _ <~ print (Text (str_mul "-" 50)) ;;
  _ <~ print_results st age gender metrics ;;
  fifth_percentile_section st age gender.

Definition metrics_help : list printed :=
  [Text (newline ++ "Available HRV metrics: sdNN, RMSSD, HF");
   Text "You can enter multiple metrics (press Enter after each one, type 'done' when finished)"].

(** The [try] body of the interactive branch (lines 351-393). *)
Definition interactive_body (bi : builtins) (st : scipy_stats)
    (stdin : list string) : list printed * list string * outcome unit :=
  match stdin with
  | [] => ([Prompt age_prompt], [], Stop EOFError)
  | age_line :: stdin1 =>
      match py_int bi age_line with
      | None => ([Prompt age_prompt], stdin1, Stop (Exc ValueError))
      | Some age =>
          match stdin1 with
          | [] => ([Prompt age_prompt; Prompt gender_prompt], [], Stop EOFError)
          | gender_line :: stdin2 =>
              let gender := strip bi gender_line in
              let '(o, unread, r) := read_metrics bi [] stdin2 in
              let asked :=
                ([Prompt age_prompt; Prompt gender_prompt] ++ metrics_help ++ o)%list in
              match r with
              | Stop s => (asked, unread, Stop s)
              | Done [] =>
                  ((asked ++ [Text "No metrics entered. Exiting."])%list, unread,
                   Stop SystemExit)
              | Done metrics_to_calculate =>
                  let (o', r') := report_batch st age gender metrics_to_calculate in
                  ((asked ++ o')%list, unread, r')
              end
          end
      end
  end.

Definition interactive_heading : list printed :=
  [Text "HRV Percentile Calculator"; Text (str_mul "=" 25); Text usage;
   Text ("Or run without arguments for interactive mode" ++ newline)].

(** The interactive branch with its handlers (lines 343-401). *)
Definition main_interactive (bi : builtins) (st : scipy_stats)
    (stdin : list string) : list printed :=
  let '(o, _, r) := interactive_body bi st stdin in
  (interactive_heading ++
   match r with
   | Done _ => o
   | Stop (Exc ValueError) =>
       o ++ [Text "Invalid input. Please enter valid numbers for age and HRV values."]
   | Stop SystemExit => o
   | Stop s => o ++ [ErrorLine s]
   end)%list.

(** The whole block: the command-line branch with four arguments or more
    after the script name, the interactive branch otherwise. *)
Definition main (bi : builtins) (st : scipy_stats)
    (argv stdin : list string) : list printed :=
  if (5 <=? List.length argv)%nat then main_cli bi st argv
  else main_interactive bi st stdin.

(** ** Keys and table entries *)

Definition valid_age (age : Z) : Prop := (25 <= age <= 74)%Z.

Definition valid_gender (gender : string) : Prop :=
  lower gender = "male" \/ lower gender = "female".

(** The metric name looked up in the table: [metric_mapping.get(m.lower(), m)]. *)
Definition normalized (hrv_metric : string) : string :=
  dict_get metric_mapping (lower hrv_metric) hrv_metric.

Definition valid_metric (hrv_metric : string) : Prop :=
  lower hrv_metric = "sdnn" \/ lower hrv_metric = "rmssd" \/ lower hrv_metric = "hf".

(** [table[gender][age_group][metric]] read as the pair (mean, sd). *)
Definition norm_entry (table : pyval) (gender age_group metric : string)
  : option (R * R) :=
  match (by_gender <- subscript table gender ;;
         by_age <- subscript by_gender age_group ;;
         data <- subscript by_age metric ;;
         mean <- subscript data "mean" ;;
         sd <- subscript data "sd" ;;
         mean <- as_float mean ;;
         sd <- as_float sd ;;
         Return (mean, sd)) with
  | Return p => Some p
  | Raise _ => None
  end.

(** [hrv_norms[gender][age_group]['n']]. *)
Definition group_size (gender age_group : string) : option Z :=
  match (by_gender <- subscript hrv_norms gender ;;
         group_data <- subscript by_gender age_group ;;
         n <- subscript group_data "n" ;;
         as_int n) with
  | Return n => Some n
  | Raise _ => None
  end.

(** What the theorems below ask of [scipy.stats]. *)
Definition cdf_nondecreasing (st : scipy_stats) : Prop :=
  forall x y, x <= y -> norm_cdf st x <= norm_cdf st y.

Definition cdf_median (st : scipy_stats) : Prop :=
  norm_cdf st 0 = 0.5.

Definition ppf_5th_approx (st : scipy_stats) : Prop :=
  -1.645 < norm_ppf st 0.05 < -1.644.

Definition t_critical_nonneg (st : scipy_stats) : Prop :=
  forall df, (1 <= df)%Z -> 0 <= t_ppf st 0.975 df.

(** A valid key: age in range, gender and metric recognised. *)
Definition valid_key (age : Z) (g m : string) : Prop :=
  valid_age age /\ valid_gender g /\ valid_metric m.

(** The two quantiles of the range calculator are in order, the upper one
    not negative. *)
Definition ppf_ordered (st : scipy_stats) : Prop :=
  norm_ppf st 0.05 < norm_ppf st 0.95 /\ 0 <= norm_ppf st 0.95.

(** ** Vocabulary for what the entry block prints *)

(** An item that is not the "An error occurred" line. *)
Definition not_error_line (p : printed) : Prop :=
  match p with
  | ErrorLine _ => False
  | _ => True
  end.

(** The title lines of the section. *)
Definition fifth_percentile_heading : list printed :=
  [Text (newline ++ "5th Percentile Values:"); Text (str_mul "-" 25)].

Definition cli_heading : list printed :=
  [Text "HRV Percentile Calculator"; Text (str_mul "=" 25)].

(** An exchange of the loop: the metric name typed and the value typed. *)
Definition exchange_lines (e : string * string) : list string := [fst e; snd e].

(** A typed name that the loop takes as a metric: not empty once stripped,
    and not "done" in any letter case. *)
Definition names_metric (bi : builtins) (e : string * string) : Prop :=
  nonempty (strip bi (fst e)) = true /\ lower (strip bi (fst e)) <> "done".

(** The pair an exchange adds to the list: none if the value does not
    parse. *)
Definition collected (bi : builtins) (e : string * string) : list (string * R) :=
  match py_float bi (snd e) with
  | Some value => [(strip bi (fst e), value)]
  | None => []
  end.

(** What the loop prints for an exchange. *)
Definition exchange_printed (bi : builtins) (e : string * string) : list printed :=
  (Prompt metric_prompt :: Prompt (value_prompt (strip bi (fst e))) ::
   match py_float bi (snd e) with
   | Some _ => []
   | None => [Text "Invalid value. Please enter a number."]
   end).

(** The results the loop prints, one per metric, in order. *)
Definition results_of (st : scipy_stats) (age : Z) (gender : string)
    (metrics : list (string * R)) (results : list hrv_result) : Prop :=
  Forall2 (fun e res => get_hrv_percentile st age gender (fst e) (snd e) = Return res)
          metrics results.

Definition results_heading : list printed :=
  [Text (newline ++ "Results:"); Text (str_mul "-" 50)].

(** What has been printed when the metric loop ends: the two first prompts,
    the help lines and the prompts of the loop. *)
Definition session_asked (bi : builtins) (exchanges : list (string * string))
  : list printed :=
  ([Prompt age_prompt; Prompt gender_prompt] ++ metrics_help
   ++ flat_map (exchange_printed bi) exchanges ++ [Prompt metric_prompt])%list.

(** The lines of a session: age, gender, the exchanges, "done". *)
Definition session (age_line gender_line : string)
    (exchanges : list (string * string)) (done_line : string)
    (rest : list string) : list string :=
  (age_line :: gender_line :: flat_map exchange_lines exchanges ++ done_line :: rest)%list.

(** A line that does not close the metric loop. *)
Definition not_done (bi : builtins) (line : string) : Prop :=
  lower (strip bi line) <> "done".

(** An item the prompts of the loop consist of. *)
Definition prompt_or_text (p : printed) : Prop :=
  match p with
  | Prompt _ | Text _ => True
  | _ => False
  end.

(** ** Auxiliary facts *)

Lemma py_max_Rmax (a b : R) : py_max a b = Rmax a b.
Proof.
  unfold py_max, Rmax.
  destruct (Rlt_dec a b) as [Hlt | Hge], (Rle_dec a b) as [Hle | Hgt];
    try reflexivity; lra.
Qed.

Lemma py_div_nonzero (a b : R) : b <> 0 -> py_div a b = Return (a / b).
Proof.
  intros Hb. unfold py_div. destruct (Req_dec_T b 0); [contradiction | reflexivity].
Qed.

Lemma age_group_of_valid (age : Z) :
  valid_age age ->
  exists age_group, age_group_of age = Some age_group /\
    In age_group ["25-34"; "35-44"; "45-54"; "55-64"; "65-74"].
Proof.
  unfold valid_age, age_group_of. intros Hage.
  repeat match goal with
  | |- context [(?a <=? ?b)%Z] => destruct (Z.leb_spec a b)
  end; cbn [andb]; try lia;
    eexists; (split; [reflexivity | cbn; tauto]).
Qed.

Lemma age_group_of_invalid (age : Z) :
  ~ valid_age age -> age_group_of age = None.
Proof.
  unfold valid_age, age_group_of. intros Hage.
  repeat match goal with
  | |- context [(?a <=? ?b)%Z] => destruct (Z.leb_spec a b)
  end; cbn [andb]; try reflexivity; lia.
Qed.

Lemma age_group_of_Some (age : Z) (age_group : string) :
  age_group_of age = Some age_group -> valid_age age.
Proof.
  intros Hsome. destruct (Z_le_dec 25 age) as [Hlo | Hlo];
    [destruct (Z_le_dec age 74) as [Hhi | Hhi] |];
    [split; assumption | |];
    rewrite age_group_of_invalid in Hsome by (unfold valid_age; lia);
    discriminate.
Qed.

Lemma normalized_valid (m : string) :
  valid_metric m -> In (normalized m) ["sdNN"; "RMSSD"; "HF"].
Proof.
  unfold valid_metric, normalized.
  intros [H | [H | H]]; rewrite H; cbn; tauto.
Qed.

Lemma lower_valid_gender (g : string) :
  valid_gender g -> In (lower g) ["female"; "male"].
Proof. unfold valid_gender. intros [H | H]; rewrite H; cbn; tauto. Qed.

Ltac eval_table :=
  cbv - [Rplus Rminus Rmult Rdiv Rinv Ropp IZR Rlt Rle Rlt_dec Req_dec_T sqrt].

Ltac each_key Hg Ha Hm :=
  cbn [In] in Hg, Ha, Hm;
  repeat match goal with
  | H : _ \/ _ |- _ => destruct H
  | H : False |- _ => destruct H
  end; subst.

(** Every (gender, age band, metric) of the range table has an entry, with a
    positive standard deviation. *)
Lemma hrv_norms_range_complete (gender age_group metric : string) :
  In gender ["female"; "male"] ->
  In age_group ["25-34"; "35-44"; "45-54"; "55-64"; "65-74"] ->
  In metric ["sdNN"; "RMSSD"; "HF"] ->
  exists mean sd,
    norm_entry hrv_norms_range gender age_group metric = Some (mean, sd) /\ 0 < sd.
Proof.
  intros Hg Ha Hm. each_key Hg Ha Hm; eval_table;
    do 2 eexists; (split; [reflexivity | lra]).
Qed.

(** The table of [get_hrv_percentile] holds the same entries, and a sample
    size for every group. *)
Lemma hrv_norms_complete (gender age_group metric : string) :
  In gender ["female"; "male"] ->
  In age_group ["25-34"; "35-44"; "45-54"; "55-64"; "65-74"] ->
  In metric ["sdNN"; "RMSSD"; "HF"] ->
  exists mean sd n,
    norm_entry hrv_norms gender age_group metric = Some (mean, sd) /\
    norm_entry hrv_norms_range gender age_group metric = Some (mean, sd) /\
    group_size gender age_group = Some n /\
    0 < sd /\ (62 <= n)%Z.
Proof.
  intros Hg Ha Hm. each_key Hg Ha Hm;
    do 3 eexists;
    (split; [eval_table; reflexivity |
     split; [eval_table; reflexivity |
     split; [eval_table; reflexivity |
     split; [lra | lia]]]]).
Qed.

(** ** The functions on a key that has an entry *)

Ltac step_binds :=
  repeat match goal with
  | H : context [bind ?m _] |- _ =>
      let E := fresh "E" in destruct m eqn:E; cbn [bind] in H |- *
  | H : Raise _ = Return _ |- _ => discriminate H
  | H : Return _ = Return _ |- _ => injection H as H; subst
  | H : None = Some _ |- _ => discriminate H
  | H1 : ?x = Return ?a, H2 : ?x = Return ?b |- _ =>
      tryif constr_eq a b then fail
      else (rewrite H1 in H2; injection H2 as H2; subst)
  end.

Lemma get_5th_percentile_value_entry (st : scipy_stats)
    (age : Z) (g m age_group : string) (mean sd : R) :
  age_group_of age = Some age_group ->
  norm_entry hrv_norms_range (lower g) age_group (normalized m) = Some (mean, sd) ->
  get_5th_percentile_value st age g m =
    Return (Some (Rmax 0 (mean + norm_ppf st 0.05 * sd))).
Proof.
  intros Hgrp Hentry.
  unfold get_5th_percentile_value. rewrite Hgrp.
  unfold norm_entry, normalized in *. cbv zeta.
  step_binds. injection Hentry as -> ->.
  cbn [try_except_KeyError]. now rewrite py_max_Rmax.
Qed.

Lemma get_normative_range_entry (st : scipy_stats)
    (age : Z) (g m age_group : string) (mean sd : R) :
  age_group_of age = Some age_group ->
  norm_entry hrv_norms_range (lower g) age_group (normalized m) = Some (mean, sd) ->
  get_normative_range st age g m =
    Return (Some {|
      range_metric := m;
      percentile_5th :=
        Rmax (if str_in (normalized m) ["RMSSD"; "HF"]
              then if String.eqb (normalized m) "RMSSD" then 1.0 else 5.0
              else 0.1)
             (mean + norm_ppf st 0.05 * sd);
      percentile_95th := mean + norm_ppf st 0.95 * sd |}).
Proof.
  intros Hgrp Hentry.
  unfold get_normative_range. rewrite Hgrp.
  unfold norm_entry, normalized in *. cbv zeta.
  step_binds. injection Hentry as -> ->.
  cbn [try_except_KeyError]. rewrite !py_max_Rmax.
  destruct (str_in _ _); reflexivity.
Qed.

Lemma str_in_valid_gender (g : string) :
  valid_gender g -> str_in (lower g) ["male"; "female"] = true.
Proof. intros [H | H]; rewrite H; reflexivity. Qed.

Lemma sqrt_sample_size_nonzero (n : Z) : (0 < n)%Z -> sqrt (IZR n) <> 0.
Proof.
  intros Hn. apply Rgt_not_eq, sqrt_lt_R0. now apply IZR_lt.
Qed.

Lemma get_hrv_percentile_entry (st : scipy_stats)
    (age : Z) (g m age_group : string) (v mean sd : R) (n : Z) :
  age_group_of age = Some age_group ->
  valid_gender g ->
  norm_entry hrv_norms (lower g) age_group (normalized m) = Some (mean, sd) ->
  group_size (lower g) age_group = Some n ->
  sd <> 0 -> (0 < n)%Z ->
  get_hrv_percentile st age g m v =
    Return (Report {|
      report_age := age;
      report_gender := lower g;
      report_metric := m;
      report_value := v;
      percentile := norm_cdf st ((v - mean) / sd) * 100;
      percentile_lower :=
        norm_cdf st ((v - (mean + t_ppf st 0.975 (n - 1) * (sd / sqrt (IZR n)))) / sd) * 100;
      percentile_upper :=
        norm_cdf st ((v - (mean - t_ppf st 0.975 (n - 1) * (sd / sqrt (IZR n)))) / sd) * 100;
      sample_size := n;
      reliability := reliability_of n;
      warning := (n <? 100)%Z |}).
Proof.
  intros Hgrp Hg Hentry Hsize Hsd Hn.
  unfold get_hrv_percentile. rewrite Hgrp. cbv zeta.
  rewrite (str_in_valid_gender g Hg). cbn [negb].
  unfold norm_entry, group_size, normalized in *.
  step_binds. injection Hentry as -> ->.
  destruct (as_int _) eqn:En in Hsize; [injection Hsize as -> | discriminate].
  step_binds. cbn [try_except_KeyError bind].
  repeat match goal with
  | E : ?x = Return _ |- context [?x] => rewrite E; cbn [try_except_KeyError bind]
  end.
  destruct (Req_dec_T sd 0) as [Hz | _]; [contradiction |].
  unfold math_sqrt. destruct (Z.ltb_spec n 0) as [Hneg | _]; [lia |].
  cbn [bind].
  repeat (rewrite py_div_nonzero
            by (assumption || now apply sqrt_sample_size_nonzero); cbn [bind]).
  reflexivity.
Qed.

(** ** Lookup misses *)

Lemma str_in_invalid_gender (g : string) :
  ~ valid_gender g -> str_in (lower g) ["male"; "female"] = false.
Proof.
  unfold valid_gender. intros Hg. cbn [str_in].
  destruct (String.eqb_spec (lower g) "male"); [tauto |].
  destruct (String.eqb_spec (lower g) "female"); [tauto |].
  reflexivity.
Qed.

Lemma hrv_norms_range_invalid_gender (g : string) :
  ~ valid_gender g -> subscript hrv_norms_range (lower g) = Raise KeyError.
Proof.
  unfold valid_gender. intros Hg.
  unfold hrv_norms_range, subscript. cbn [lookup].
  destruct (String.eqb_spec "female" (lower g)) as [He | _]; [symmetry in He; tauto |].
  destruct (String.eqb_spec "male" (lower g)) as [He | _]; [symmetry in He; tauto |].
  reflexivity.
Qed.

(** A name that the mapping does not know is looked up as it was given. *)
Lemma normalized_unknown (m : string) : ~ valid_metric m -> normalized m = m.
Proof.
  unfold valid_metric, normalized. intros Hm. cbn [dict_get metric_mapping].
  destruct (String.eqb_spec "sdnn" (lower m)) as [He | _]; [symmetry in He; tauto |].
  destruct (String.eqb_spec "rmssd" (lower m)) as [He | _]; [symmetry in He; tauto |].
  destruct (String.eqb_spec "hf" (lower m)) as [He | _]; [symmetry in He; tauto |].
  reflexivity.
Qed.

(** Such a name is none of the three canonical keys. *)
Lemma unknown_not_canonical (m : string) :
  ~ valid_metric m ->
  String.eqb "sdNN" m = false /\ String.eqb "RMSSD" m = false /\
  String.eqb "HF" m = false.
Proof.
  unfold valid_metric. intros Hm.
  repeat split; apply String.eqb_neq; intros <-; apply Hm; cbn; tauto.
Qed.

Lemma valid_gender_dec (g : string) : {valid_gender g} + {~ valid_gender g}.
Proof.
  unfold valid_gender.
  destruct (string_dec (lower g) "male"); [left; tauto |].
  destruct (string_dec (lower g) "female"); [left; tauto |].
  right; tauto.
Qed.

Lemma valid_metric_dec (m : string) : {valid_metric m} + {~ valid_metric m}.
Proof.
  unfold valid_metric.
  destruct (string_dec (lower m) "sdnn"); [left; tauto |].
  destruct (string_dec (lower m) "rmssd"); [left; tauto |].
  destruct (string_dec (lower m) "hf"); [left; tauto |].
  right; tauto.
Qed.

(** Evaluate the subscript of a literal dictionary by the literal key [k]. *)
Ltac eval_subscript k :=
  match goal with
  | |- context [subscript ?d k] =>
      let v := eval cbv - [Rplus Rminus Rmult Rdiv Rinv Ropp IZR] in (subscript d k) in
      change (subscript d k) with v; cbn [bind]
  end.

(** Expose the key comparisons of a literal dictionary subscripted by [m]. *)
Ltac open_subscript m :=
  repeat match goal with
  | |- context [subscript (VDict ?d) m] =>
      change (subscript (VDict d) m)
        with (match lookup d m with
              | Some x => Return x
              | None => Raise KeyError
              end)
  end; cbn [lookup].

(** In the two range functions every failed lookup is the same [None]:
    a metric name outside the mapping, whatever the age and gender. *)
Lemma range_unknown_metric (st : scipy_stats) (age : Z) (g m : string) :
  ~ valid_metric m ->
  get_5th_percentile_value st age g m = Return None /\
  get_normative_range st age g m = Return None.
Proof.
  intros Hm.
  unfold get_5th_percentile_value, get_normative_range.
  destruct (age_group_of age) as [age_group |] eqn:Hgrp; [| split; reflexivity].
  destruct (age_group_of_valid age (age_group_of_Some _ _ Hgrp)) as (grp & Hgrp' & Hin).
  rewrite Hgrp in Hgrp'. injection Hgrp' as <-.
  cbv zeta. fold (normalized m). rewrite (normalized_unknown m Hm).
  destruct (unknown_not_canonical m Hm) as (H1 & H2 & H3).
  destruct (valid_gender_dec g) as [Hg | Hg].
  - apply lower_valid_gender in Hg.
    remember (lower g) as gender eqn:Hlower. clear Hlower.
    assert (Hk : In m [m]) by (left; reflexivity).
    each_key Hg Hin Hk;
      match goal with
      | |- context [subscript hrv_norms_range ?k] =>
          eval_subscript k
      end;
      match goal with
      | |- context [subscript _ (String ?c ?s)] =>
          eval_subscript (String c s)
      end;
      open_subscript m; rewrite H1, H2, H3; split; reflexivity.
  - rewrite (hrv_norms_range_invalid_gender g Hg). split; reflexivity.
Qed.

(** In [get_hrv_percentile] an unknown metric name is caught by the
    [except KeyError] clause, unless it is the key ["n"] of the group. *)
Lemma get_hrv_percentile_unknown_metric (st : scipy_stats)
    (age : Z) (g m age_group : string) (v : R) :
  age_group_of age = Some age_group ->
  valid_gender g ->
  ~ valid_metric m ->
  m <> "n" ->
  get_hrv_percentile st age g m v =
    Return (Message (metric_error m (lower g) age_group)).
Proof.
  intros Hgrp Hg Hm Hn.
  destruct (age_group_of_valid age (age_group_of_Some _ _ Hgrp)) as (grp & Hgrp' & Hin).
  rewrite Hgrp in Hgrp'. injection Hgrp' as <-.
  unfold get_hrv_percentile. rewrite Hgrp. cbv zeta.
  rewrite (str_in_valid_gender g Hg). cbn [negb].
  fold (normalized m). rewrite (normalized_unknown m Hm).
  destruct (unknown_not_canonical m Hm) as (H1 & H2 & H3).
  assert (H4 : String.eqb "n" m = false)
    by (apply String.eqb_neq; congruence).
  apply lower_valid_gender in Hg.
  remember (lower g) as gender eqn:Hlower. clear Hlower.
  assert (Hk : In m [m]) by (left; reflexivity).
  each_key Hg Hin Hk;
    match goal with
    | |- context [subscript hrv_norms ?k] => eval_subscript k
    end;
    match goal with
    | |- context [subscript _ (String ?c ?s)] => eval_subscript (String c s)
    end;
    open_subscript m; rewrite H1, H2, H3, H4; reflexivity.
Qed.

Lemma get_hrv_percentile_sample_size_key (st : scipy_stats)
    (age : Z) (g : string) (v : R) :
  valid_age age ->
  valid_gender g ->
  get_hrv_percentile st age g "n" v = Raise TypeError.
Proof.
  intros Hage Hg.
  destruct (age_group_of_valid age Hage) as (grp & Hgrp & Hin).
  unfold get_hrv_percentile. rewrite Hgrp. cbv zeta.
  rewrite (str_in_valid_gender g Hg). cbn [negb].
  apply lower_valid_gender in Hg.
  remember (lower g) as gender eqn:Hlower. clear Hlower.
  assert (Hk : In "n" ["n"]) by (left; reflexivity).
  each_key Hg Hin Hk; reflexivity.
Qed.

(** ** A key with an entry: what each function returns *)

Lemma get_hrv_percentile_valid (st : scipy_stats)
    (age : Z) (g m : string) (v : R) :
  valid_age age -> valid_gender g -> valid_metric m ->
  exists age_group mean sd n,
    age_group_of age = Some age_group /\
    norm_entry hrv_norms (lower g) age_group (normalized m) = Some (mean, sd) /\
    group_size (lower g) age_group = Some n /\
    0 < sd /\ (62 <= n)%Z /\
    get_hrv_percentile st age g m v =
      Return (Report {|
        report_age := age;
        report_gender := lower g;
        report_metric := m;
        report_value := v;
        percentile := norm_cdf st ((v - mean) / sd) * 100;
        percentile_lower :=
          norm_cdf st ((v - (mean + t_ppf st 0.975 (n - 1) * (sd / sqrt (IZR n)))) / sd) * 100;
        percentile_upper :=
          norm_cdf st ((v - (mean - t_ppf st 0.975 (n - 1) * (sd / sqrt (IZR n)))) / sd) * 100;
        sample_size := n;
        reliability := reliability_of n;
        warning := (n <? 100)%Z |}).
Proof.
  intros Hage Hg Hm.
  destruct (age_group_of_valid age Hage) as (age_group & Hgrp & Hin).
  destruct (hrv_norms_complete (lower g) age_group (normalized m)
              (lower_valid_gender g Hg) Hin (normalized_valid m Hm))
    as (mean & sd & n & Hentry & _ & Hsize & Hsd & Hn).
  exists age_group, mean, sd, n. repeat (split; [assumption |]).
  apply get_hrv_percentile_entry with (age_group := age_group);
    try assumption; [lra | lia].
Qed.

Lemma range_valid (st : scipy_stats) (age : Z) (g m : string) :
  valid_age age -> valid_gender g -> valid_metric m ->
  exists age_group mean sd,
    age_group_of age = Some age_group /\
    norm_entry hrv_norms_range (lower g) age_group (normalized m) = Some (mean, sd) /\
    0 < sd.
Proof.
  intros Hage Hg Hm.
  destruct (age_group_of_valid age Hage) as (age_group & Hgrp & Hin).
  destruct (hrv_norms_range_complete (lower g) age_group (normalized m)
              (lower_valid_gender g Hg) Hin (normalized_valid m Hm))
    as (mean & sd & Hentry & Hsd).
  exists age_group, mean, sd. auto.
Qed.

(** With an age in range and a valid gender, [get_hrv_percentile] ends in
    one of three ways. *)
Lemma get_hrv_percentile_outcomes (st : scipy_stats)
    (age : Z) (g m : string) (v : R) :
  valid_age age -> valid_gender g ->
  (exists r, get_hrv_percentile st age g m v = Return (Report r)) \/
  get_hrv_percentile st age g m v = Raise TypeError \/
  (exists age_group,
     get_hrv_percentile st age g m v =
       Return (Message (metric_error m (lower g) age_group))).
Proof.
  intros Hage Hg.
  destruct (valid_metric_dec m) as [Hm | Hm].
  - left. destruct (get_hrv_percentile_valid st age g m v Hage Hg Hm)
      as (? & ? & ? & ? & _ & _ & _ & _ & _ & ->). eauto.
  - destruct (string_dec m "n") as [-> | Hn].
    + right; left. now apply get_hrv_percentile_sample_size_key.
    + right; right.
      destruct (age_group_of_valid age Hage) as (age_group & Hgrp & _).
      exists age_group. now apply get_hrv_percentile_unknown_metric.
Qed.

Lemma metric_error_not_age_error (m g a : string) : metric_error m g a <> age_error.
Proof. unfold metric_error, age_error. cbn. discriminate. Qed.

Lemma metric_error_not_gender_error (m g a : string) :
  metric_error m g a <> gender_error.
Proof. unfold metric_error, gender_error. cbn. discriminate. Qed.

Lemma range_out_of_range (st : scipy_stats) (age : Z) (g m : string) :
  ~ valid_age age ->
  get_5th_percentile_value st age g m = Return None /\
  get_normative_range st age g m = Return None.
Proof.
  intros Hage. unfold get_5th_percentile_value, get_normative_range.
  rewrite (age_group_of_invalid age Hage). split; reflexivity.
Qed.

Lemma range_invalid_gender (st : scipy_stats) (age : Z) (g m : string) :
  ~ valid_gender g ->
  get_5th_percentile_value st age g m = Return None /\
  get_normative_range st age g m = Return None.
Proof.
  intros Hg. unfold get_5th_percentile_value, get_normative_range.
  destruct (age_group_of age); [| split; reflexivity].
  cbv zeta. rewrite (hrv_norms_range_invalid_gender g Hg). split; reflexivity.
Qed.

(** ** A stand-in for [scipy.stats]

    The theorems below hold for any [scipy_stats] with the properties they
    name.  To run the functions on concrete inputs we fix one: the standard
    normal distribution function itself, defined by its integral; the two
    normal quantiles the source asks for (the source notes them as -1.645
    and 1.645); and a first-order approximation of the 97.5% Student
    quantile. *)

(** The normal density without its factor [1 / sqrt (2 * PI)]. *)
Definition gauss (t : R) : R := exp (- (t * t / 2)).

Lemma gauss_continuous (t : R) : continuity_pt gauss t.
Proof.
  apply derivable_continuous_pt. unfold gauss. reg.
Qed.

Lemma gauss_integrable (a b : R) : Riemann_integrable gauss a b.
Proof.
  destruct (Rle_dec a b) as [Hab | Hba].
  - apply continuity_implies_RiemannInt; [assumption |].
    intros x _. apply gauss_continuous.
  - apply RiemannInt_P1, continuity_implies_RiemannInt; [lra |].
    intros x _. apply gauss_continuous.
Defined.

(** The standard normal distribution function. *)
Definition Phi (x : R) : R :=
  1 / 2 + / sqrt (2 * PI) * RiemannInt (gauss_integrable 0 x).

Definition reference_stats : scipy_stats := {|
  norm_cdf := Phi;
  norm_ppf := fun q => if Rlt_dec q 0.5 then -1.6448536269514729
                       else 1.6448536269514722;
  t_ppf := fun _ df => 1.96 + 2.4 / IZR df
|}.

(** A stand-in for [scipy.stats] on binary64 values: a distribution function
    computed with float operations alone (that of Student's t with two
    degrees of freedom), which like [norm.cdf] maps NaN to NaN, and the
    normal critical value for the Student one. *)
Definition reference_stats64 : scipy_stats64 := {|
  norm_cdf64 := fun x =>
    (0.5 * (1 + x / PrimFloat.sqrt (2 + x * x)))%float;
  t_ppf64 := fun _ _ => 1.96%float
|}.

(** ** A stand-in for the built-ins

    Enough of [int], [float] and [str.strip] to run the entry block on
    concrete lines: decimal digits only, blanks stripped at both ends. *)

Definition is_space (c : ascii) : bool :=
  let n := N_of_ascii c in
  ((9 <=? n)%N && (n <=? 13)%N) || (n =? 32)%N.

Fixpoint lstrip (s : string) : string :=
  match s with
  | EmptyString => EmptyString
  | String c s' => if is_space c then lstrip s' else s
  end.

Fixpoint rstrip (s : string) : string :=
  match s with
  | EmptyString => EmptyString
  | String c s' =>
      match rstrip s' with
      | EmptyString => if is_space c then EmptyString else String c EmptyString
      | r => String c r
      end
  end.

Fixpoint digits (s : string) (acc : Z) : option Z :=
  match s with
  | EmptyString => Some acc
  | String c s' =>
      let n := N_of_ascii c in
      if (48 <=? n)%N && (n <=? 57)%N
      then digits s' (10 * acc + Z.of_N (n - 48))%Z
      else None
  end.

Definition decimal (s : string) : option Z :=
  match rstrip (lstrip s) with
  | EmptyString => None
  | t => digits t 0%Z
  end.

Definition reference_builtins : builtins := {|
  py_int := decimal;
  py_float := fun s => option_map IZR (decimal s);
  strip := fun s => rstrip (lstrip s)
|}.

Lemma gauss_lower_bound (x y t : R) :
  x <= t <= y -> exp (- ((x * x + y * y) / 2)) <= gauss t.
Proof.
  intros Ht. unfold gauss.
  assert (Hsq : t * t <= x * x + y * y)
    by (destruct (Rle_dec 0 t); nra).
  destruct (Req_dec (t * t) (x * x + y * y)) as [-> | Hne];
    [right; reflexivity |].
  left. apply exp_increasing. lra.
Qed.

Lemma Phi_increasing (x y : R) : x < y -> Phi x < Phi y.
Proof.
  intros Hxy. unfold Phi.
  rewrite <- (RiemannInt_P26 (gauss_integrable 0 x) (gauss_integrable x y)
                (gauss_integrable 0 y)).
  assert (Hscale : 0 < / sqrt (2 * PI)).
  { apply Rinv_0_lt_compat, sqrt_lt_R0. pose proof PI_RGT_0. lra. }
  set (low := exp (- ((x * x + y * y) / 2))).
  assert (Hlow : 0 < low) by apply exp_pos.
  assert (Harea : low * (y - x) <= RiemannInt (gauss_integrable x y)).
  { rewrite <- (RiemannInt_P15 (RiemannInt_P14 x y low)).
    apply RiemannInt_P19; [lra |].
    intros t Ht. unfold fct_cte. apply gauss_lower_bound. lra. }
  assert (0 < RiemannInt (gauss_integrable x y)) by nra.
  nra.
Qed.

Lemma reference_stats_cdf_nondecreasing : cdf_nondecreasing reference_stats.
Proof.
  intros x y [Hlt | ->]; [left; now apply Phi_increasing | right; reflexivity].
Qed.

Lemma reference_stats_cdf_median : cdf_median reference_stats.
Proof.
  unfold cdf_median, reference_stats, Phi. cbn [norm_cdf].
  rewrite RiemannInt_P9. lra.
Qed.

Lemma reference_stats_t_critical : t_critical_nonneg reference_stats.
Proof.
  unfold t_critical_nonneg, reference_stats. cbn [t_ppf]. intros df Hdf.
  assert (Hpos : 0 < IZR df) by (apply IZR_lt; lia).
  assert (0 < 2.4 / IZR df) by (apply Rdiv_lt_0_compat; lra).
  lra.
Qed.

Lemma valid_30_male_sdNN :
  valid_age 30 /\ valid_gender "male" /\ valid_metric "sdNN".
Proof.
  split; [unfold valid_age; lia |].
  split; [left; reflexivity | left; reflexivity].
Qed.

Lemma valid_60_female_HF :
  valid_age 60 /\ valid_gender "Female" /\ valid_metric "HF".
Proof.
  split; [unfold valid_age; lia |].
  split; [right; reflexivity | right; right; reflexivity].
Qed.

Lemma reference_stats_ppf_5th : ppf_5th_approx reference_stats.
Proof.
  unfold ppf_5th_approx, reference_stats. cbn [norm_ppf].
  destruct (Rlt_dec 0.05 0.5); lra.
Qed.

(** ** NaN in binary64 arithmetic

    Python's [float('nan')] propagates through subtraction, division and
    multiplication, and every comparison with it is false. *)

Lemma is_nan_eq (x : float) : PrimFloat.is_nan x = true -> x = nan.
Proof.
  unfold PrimFloat.is_nan. rewrite FloatAxioms.eqb_spec. intros H.
  apply Prim2SF_inj. change (Prim2SF nan) with S754_nan.
  destruct (Prim2SF x) as [s | s | | s m e]; try reflexivity;
    unfold SFeqb, SFcompare in H.
  - discriminate.
  - destruct s; discriminate.
  - rewrite Z.compare_refl, Pos.compare_cont_refl in H.
    destruct s; discriminate.
Qed.

Lemma nan_sub (y : float) : (nan - y)%float = nan.
Proof. apply Prim2SF_inj. rewrite FloatAxioms.sub_spec. reflexivity. Qed.

Lemma nan_div (y : float) : (nan / y)%float = nan.
Proof. apply Prim2SF_inj. rewrite FloatAxioms.div_spec. reflexivity. Qed.

Lemma nan_mul (y : float) : (nan * y)%float = nan.
Proof. apply Prim2SF_inj. rewrite FloatAxioms.mul_spec. reflexivity. Qed.

Lemma nan_leb (y : float) : (nan <=? y)%float = false.
Proof. rewrite FloatAxioms.leb_spec. reflexivity. Qed.

(** At NaN the three percentiles are NaN, for every group and every
    [norm.cdf] that maps NaN to NaN (as scipy's does). *)
Lemma percentile_arithmetic64_nan (st : scipy_stats64)
    (mean sd : float) (n : Z) :
  PrimFloat.is_nan (norm_cdf64 st nan) = true ->
  percentile64 (percentile_arithmetic64 st mean sd n nan) = nan /\
  percentile_lower64 (percentile_arithmetic64 st mean sd n nan) = nan /\
  percentile_upper64 (percentile_arithmetic64 st mean sd n nan) = nan.
Proof.
  intros Hcdf. apply is_nan_eq in Hcdf.
  unfold percentile_arithmetic64.
  cbn [percentile64 percentile_lower64 percentile_upper64].
  rewrite !nan_sub, !nan_div, Hcdf, nan_mul. auto.
Qed.

(** ** The claims *)

(** C1 (the code departs from the claim).  The claim: with an age in
    [25,74] and a gender among male/female, every metric name that does not
    normalize to sdNN/RMSSD/HF yields the metric-unavailable message and
    never an uncaught exception, the name ["n"] included.  On the code this
    holds for every such name but ["n"]: that name selects the sample size
    of the group, an [int]; subscripting it by ['mean'] raises [TypeError],
    which [except KeyError] does not catch. *)
Theorem get_hrv_percentile_n_raises_TypeError (st : scipy_stats)
    (age : Z) (g : string) (v : R) :
  valid_age age -> valid_gender g ->
  (forall m, ~ valid_metric m -> m <> "n" ->
     exists age_group,
       age_group_of age = Some age_group /\
       get_hrv_percentile st age g m v =
         Return (Message (metric_error m (lower g) age_group))) /\
  ~ valid_metric "n" /\
  get_hrv_percentile st age g "n" v = Raise TypeError.
Proof.
  intros Hage Hg. split; [| split].
  - intros m Hm Hn.
    destruct (age_group_of_valid age Hage) as (age_group & Hgrp & _).
    exists age_group. split; [exact Hgrp |].
    now apply get_hrv_percentile_unknown_metric.
  - unfold valid_metric. cbn. intros [H | [H | H]]; discriminate H.
  - now apply get_hrv_percentile_sample_size_key.
Qed.

Lemma get_hrv_percentile_n_raises_TypeError_witness :
  valid_age 30 /\ valid_gender "male" /\
  get_hrv_percentile reference_stats 30 "male" "n" 50 = Raise TypeError.
Proof.
  assert (Hage : valid_age 30) by (unfold valid_age; lia).
  assert (Hg : valid_gender "male") by (left; reflexivity).
  split; [exact Hage | split; [exact Hg |]].
  exact (proj2 (proj2 (get_hrv_percentile_n_raises_TypeError
                         reference_stats 30 "male" 50 Hage Hg))).
Defined.

(** C2.  On a valid key [get_5th_percentile_value] returns exactly
    [max(0, mean + z5 * sd)] with [z5 = norm.ppf(0.05)]: the floor is 0, not
    the 0.1 / 1.0 / 5.0 of the range calculator.  The result is never
    negative, and (with [z5] close to -1.645) there is a key on which it
    differs from the lower bound of [get_normative_range]. *)
Theorem get_5th_percentile_value_floor_zero (st : scipy_stats) :
  ppf_5th_approx st ->
  (forall age g m,
     valid_age age -> valid_gender g -> valid_metric m ->
     exists age_group mean sd,
       age_group_of age = Some age_group /\
       norm_entry hrv_norms_range (lower g) age_group (normalized m)
         = Some (mean, sd) /\
       get_5th_percentile_value st age g m
         = Return (Some (Rmax 0 (mean + norm_ppf st 0.05 * sd))) /\
       0 <= Rmax 0 (mean + norm_ppf st 0.05 * sd)) /\
  (exists age g m x r,
     valid_age age /\ valid_gender g /\ valid_metric m /\
     get_5th_percentile_value st age g m = Return (Some x) /\
     get_normative_range st age g m = Return (Some r) /\
     x <> percentile_5th r).
Proof.
  intros Hz. split.
  - intros age g m Hage Hg Hm.
    destruct (range_valid st age g m Hage Hg Hm)
      as (age_group & mean & sd & Hgrp & Hentry & _).
    exists age_group, mean, sd.
    split; [exact Hgrp |]. split; [exact Hentry |].
    split; [now apply get_5th_percentile_value_entry with (age_group := age_group) |].
    apply Rmax_l.
  - destruct valid_60_female_HF as (Hage & Hg & Hm).
    assert (Hgrp : age_group_of 60 = Some "55-64") by reflexivity.
    assert (Hentry : norm_entry hrv_norms_range (lower "Female") "55-64"
                       (normalized "HF") = Some (IZR 35, IZR 53))
      by reflexivity.
    exists 60%Z, "Female", "HF". do 2 eexists.
    split; [exact Hage |]. split; [exact Hg |]. split; [exact Hm |].
    split; [exact (get_5th_percentile_value_entry st _ _ _ _ _ _ Hgrp Hentry) |].
    split; [exact (get_normative_range_entry st _ _ _ _ _ _ Hgrp Hentry) |].
    cbn [percentile_5th]. unfold ppf_5th_approx in Hz.
    change (str_in (normalized "HF") ["RMSSD"; "HF"]) with true.
    change (String.eqb (normalized "HF") "RMSSD") with false. cbv iota.
    rewrite Rmax_left by lra. rewrite Rmax_left by lra. lra.
Qed.

Lemma get_5th_percentile_value_floor_zero_witness :
  ppf_5th_approx reference_stats /\
  exists mean sd,
    norm_entry hrv_norms_range "male" "25-34" "sdNN" = Some (mean, sd) /\
    get_5th_percentile_value reference_stats 30 "male" "sdNN"
      = Return (Some (Rmax 0 (mean + norm_ppf reference_stats 0.05 * sd))).
Proof.
  split; [exact reference_stats_ppf_5th |].
  destruct valid_30_male_sdNN as (Hage & Hg & Hm).
  destruct (proj1 (get_5th_percentile_value_floor_zero
                     reference_stats reference_stats_ppf_5th)
              30%Z "male" "sdNN" Hage Hg Hm)
    as (age_group & mean & sd & Hgrp & Hentry & Hres & _).
  injection Hgrp as <-.
  exists mean, sd. split; [exact Hentry | exact Hres].
Defined.

(** C3.  On a valid key [get_normative_range] computes
    [p5_raw = mean + norm.ppf(0.05) * sd] and [p95 = mean + norm.ppf(0.95) * sd]
    and floors the lower bound only: at 1.0 for RMSSD, at 5.0 for HF, at 0.1
    for sdNN.  The returned lower bound is never below the floor of its
    metric; the upper bound is the unclamped value. *)
Theorem get_normative_range_floors (st : scipy_stats)
    (age : Z) (g m : string) :
  valid_age age -> valid_gender g -> valid_metric m ->
  exists age_group mean sd r,
    age_group_of age = Some age_group /\
    norm_entry hrv_norms_range (lower g) age_group (normalized m)
      = Some (mean, sd) /\
    get_normative_range st age g m = Return (Some r) /\
    percentile_95th r = mean + norm_ppf st 0.95 * sd /\
    (normalized m = "RMSSD" ->
       percentile_5th r = Rmax 1.0 (mean + norm_ppf st 0.05 * sd) /\
       1.0 <= percentile_5th r) /\
    (normalized m = "HF" ->
       percentile_5th r = Rmax 5.0 (mean + norm_ppf st 0.05 * sd) /\
       5.0 <= percentile_5th r) /\
    (normalized m = "sdNN" ->
       percentile_5th r = Rmax 0.1 (mean + norm_ppf st 0.05 * sd) /\
       0.1 <= percentile_5th r) /\
    In (normalized m) ["sdNN"; "RMSSD"; "HF"].
Proof.
  intros Hage Hg Hm.
  destruct (range_valid st age g m Hage Hg Hm)
    as (age_group & mean & sd & Hgrp & Hentry & _).
  exists age_group, mean, sd. eexists.
  split; [exact Hgrp |]. split; [exact Hentry |].
  split; [exact (get_normative_range_entry st _ _ _ _ _ _ Hgrp Hentry) |].
  cbn [percentile_5th percentile_95th].
  split; [reflexivity |].
  split; [| split; [| split]].
  - intros ->. split; [reflexivity | apply Rmax_l].
  - intros ->. split; [reflexivity | apply Rmax_l].
  - intros ->. split; [reflexivity | apply Rmax_l].
  - now apply normalized_valid.
Qed.

Lemma get_normative_range_floors_witness :
  exists r,
    get_normative_range reference_stats 60 "Female" "HF" = Return (Some r) /\
    percentile_5th r = 5.0 /\
    percentile_95th r = 35 + 1.6448536269514722 * 53.
Proof.
  destruct valid_60_female_HF as (Hage & Hg & Hm).
  destruct (get_normative_range_floors reference_stats 60 "Female" "HF"
              Hage Hg Hm)
    as (age_group & mean & sd & r & Hgrp & Hentry & Hres & H95 & _ & HHF & _).
  exists r. split; [exact Hres |].
  injection Hgrp as <-.
  assert (Hkey : Some (mean, sd) = Some (IZR 35, IZR 53))
    by (rewrite <- Hentry; reflexivity).
  injection Hkey as -> ->.
  destruct (HHF eq_refl) as (H5 & _).
  rewrite H5, H95. unfold reference_stats. cbn [norm_ppf].
  destruct (Rlt_dec 0.05 0.5); [| lra].
  destruct (Rlt_dec 0.95 0.5); [lra |].
  split; [apply Rmax_left; lra | reflexivity].
Defined.

(** C4.  On a valid key the percentile of the report is
    [norm.cdf((user_value - mean) / sd) * 100] for the table entry
    (mean, sd) of the key; with [norm.cdf(0) = 0.5], a user value equal to the
    table mean is at percentile 50. *)
Theorem percentile_is_cdf_of_z_score (st : scipy_stats)
    (age : Z) (g m : string) (v : R) :
  valid_age age -> valid_gender g -> valid_metric m ->
  cdf_median st ->
  exists age_group mean sd r,
    age_group_of age = Some age_group /\
    norm_entry hrv_norms (lower g) age_group (normalized m) = Some (mean, sd) /\
    get_hrv_percentile st age g m v = Return (Report r) /\
    percentile r = norm_cdf st ((v - mean) / sd) * 100 /\
    (v = mean -> percentile r = 50.0).
Proof.
  intros Hage Hg Hm Hmedian.
  destruct (get_hrv_percentile_valid st age g m v Hage Hg Hm)
    as (age_group & mean & sd & n & Hgrp & Hentry & _ & Hsd & _ & Hres).
  exists age_group, mean, sd. eexists.
  split; [exact Hgrp |]. split; [exact Hentry |]. split; [exact Hres |].
  cbn [percentile]. split; [reflexivity |].
  intros ->. unfold cdf_median in Hmedian.
  replace ((mean - mean) / sd) with 0 by (field; lra).
  rewrite Hmedian. lra.
Qed.

Lemma percentile_is_cdf_of_z_score_witness :
  exists r,
    get_hrv_percentile reference_stats 30 "male" "sdNN" 49.9 = Return (Report r) /\
    percentile r = 50.0.
Proof.
  destruct valid_30_male_sdNN as (Hage & Hg & Hm).
  destruct (percentile_is_cdf_of_z_score reference_stats 30 "male" "sdNN" 49.9
              Hage Hg Hm reference_stats_cdf_median)
    as (age_group & mean & sd & r & Hgrp & Hentry & Hres & _ & Hmean).
  exists r. split; [exact Hres |].
  apply Hmean.
  injection Hgrp as <-.
  revert Hentry. eval_table. intros Hentry. injection Hentry as <- _. lra.
Defined.

(** C5 (amended).  On a valid key and for every user value that is a
    number, with [norm.cdf] nondecreasing and the Student critical value
    [t.ppf(0.975, n - 1)] nonnegative, the lower percentile bound is
    computed against [mean + t * sem], the upper one against
    [mean - t * sem], and they bracket the percentile:
    [percentile_lower <= percentile <= percentile_upper].  (A real number
    is never NaN; the NaN case is the lemma after the witness.) *)
Theorem percentile_bounds_bracket (st : scipy_stats)
    (age : Z) (g m : string) (v : R) :
  valid_age age -> valid_gender g -> valid_metric m ->
  cdf_nondecreasing st -> t_critical_nonneg st ->
  exists age_group mean sd n r,
    age_group_of age = Some age_group /\
    norm_entry hrv_norms (lower g) age_group (normalized m) = Some (mean, sd) /\
    group_size (lower g) age_group = Some n /\
    get_hrv_percentile st age g m v = Return (Report r) /\
    percentile_lower r =
      norm_cdf st ((v - (mean + t_ppf st 0.975 (n - 1) * (sd / sqrt (IZR n)))) / sd) * 100 /\
    percentile_upper r =
      norm_cdf st ((v - (mean - t_ppf st 0.975 (n - 1) * (sd / sqrt (IZR n)))) / sd) * 100 /\
    percentile_lower r <= percentile r <= percentile_upper r.
Proof.
  intros Hage Hg Hm Hcdf Ht.
  destruct (get_hrv_percentile_valid st age g m v Hage Hg Hm)
    as (age_group & mean & sd & n & Hgrp & Hentry & Hsize & Hsd & Hn & Hres).
  exists age_group, mean, sd, n. eexists.
  split; [exact Hgrp |]. split; [exact Hentry |]. split; [exact Hsize |].
  split; [exact Hres |].
  cbn [percentile percentile_lower percentile_upper].
  split; [reflexivity |]. split; [reflexivity |].
  assert (Hroot : 0 < sqrt (IZR n)) by (apply sqrt_lt_R0, IZR_lt; lia).
  assert (Hsem : 0 < sd / sqrt (IZR n)) by (now apply Rdiv_lt_0_compat).
  assert (Hcrit : 0 <= t_ppf st 0.975 (n - 1)) by (apply Ht; lia).
  assert (Hwidth : 0 <= t_ppf st 0.975 (n - 1) * (sd / sqrt (IZR n)))
    by (apply Rmult_le_pos; lra).
  assert (Hinv : 0 < / sd) by (now apply Rinv_0_lt_compat).
  split; (apply Rmult_le_compat_r; [lra |]); apply Hcdf;
    unfold Rdiv; (apply Rmult_le_compat_r; [lra |]); lra.
Qed.

Lemma percentile_bounds_bracket_witness :
  exists r,
    get_hrv_percentile reference_stats 60 "Female" "HF" 20 = Return (Report r) /\
    percentile_lower r <= percentile r <= percentile_upper r.
Proof.
  destruct valid_60_female_HF as (Hage & Hg & Hm).
  destruct (percentile_bounds_bracket reference_stats 60 "Female" "HF" 20
              Hage Hg Hm
              reference_stats_cdf_nondecreasing
              reference_stats_t_critical)
    as (age_group & mean & sd & n & r & _ & _ & _ & Hres & _ & _ & Hbracket).
  exists r. split; [exact Hres | exact Hbracket].
Defined.

(** Against C5 as stated (every user value): [float('nan')] is a user value
    that both branches of the entry block accept.  For the key 30 / male /
    sdNN (mean 49.9, sd 19.8, n 330) the z-scores are NaN, so the percentile
    and both bounds are NaN, and neither [percentile_lower <= percentile]
    nor [percentile <= percentile_upper] holds.  The same happens in every
    group, whatever [norm.cdf] and [t.ppf] are, as long as [norm.cdf] maps
    NaN to NaN. *)
Lemma percentile_bounds_fail_at_nan :
  norm_entry hrv_norms "male" "25-34" "sdNN" = Some (49.9, 19.8) /\
  group_size "male" "25-34" = Some 330%Z /\
  PrimFloat.is_nan
    (percentile64 (percentile_arithmetic64 reference_stats64 49.9 19.8 330 nan))
    = true /\
  (percentile_lower64 (percentile_arithmetic64 reference_stats64 49.9 19.8 330 nan)
   <=? percentile64 (percentile_arithmetic64 reference_stats64 49.9 19.8 330 nan))%float
    = false /\
  (percentile64 (percentile_arithmetic64 reference_stats64 49.9 19.8 330 nan)
   <=? percentile_upper64 (percentile_arithmetic64 reference_stats64 49.9 19.8 330 nan))%float
    = false /\
  forall (st : scipy_stats64) (mean sd : float) (n : Z),
    PrimFloat.is_nan (norm_cdf64 st nan) = true ->
    (percentile_lower64 (percentile_arithmetic64 st mean sd n nan)
     <=? percentile64 (percentile_arithmetic64 st mean sd n nan))%float = false /\
    (percentile64 (percentile_arithmetic64 st mean sd n nan)
     <=? percentile_upper64 (percentile_arithmetic64 st mean sd n nan))%float = false.
Proof.
  split; [reflexivity |]. split; [reflexivity |].
  split; [vm_compute; reflexivity |].
  split; [vm_compute; reflexivity |].
  split; [vm_compute; reflexivity |].
  intros st mean sd n Hcdf.
  destruct (percentile_arithmetic64_nan st mean sd n Hcdf) as (-> & -> & ->).
  split; apply nan_leb.
Qed.

(** C6.  [get_hrv_percentile] returns the age message exactly when the age
    is outside [25,74]; with the age inside, it returns the gender message
    exactly when the lowered gender is neither male nor female.  Both are
    returned values (distinct strings), and an age out of range wins over
    an invalid gender: the age is checked first. *)
Theorem get_hrv_percentile_failures (st : scipy_stats)
    (age : Z) (g m : string) (v : R) :
  (get_hrv_percentile st age g m v = Return (Message age_error)
     <-> ~ valid_age age) /\
  (valid_age age ->
   (get_hrv_percentile st age g m v = Return (Message gender_error)
      <-> ~ valid_gender g)) /\
  age_error <> gender_error.
Proof.
  assert (Hshape : valid_age age -> valid_gender g ->
            forall s, get_hrv_percentile st age g m v = Return (Message s) ->
            exists a, s = metric_error m (lower g) a).
  { intros Hage Hg s Hs.
    destruct (get_hrv_percentile_outcomes st age g m v Hage Hg)
      as [(r & Hr) | [Hr | (a & Hr)]]; rewrite Hr in Hs;
      try discriminate Hs.
    injection Hs as <-. now exists a. }
  assert (Hinvalid : valid_age age -> ~ valid_gender g ->
            get_hrv_percentile st age g m v = Return (Message gender_error)).
  { intros Hage Hg.
    destruct (age_group_of_valid age Hage) as (age_group & Hgrp & _).
    unfold get_hrv_percentile. rewrite Hgrp. cbv zeta.
    now rewrite (str_in_invalid_gender g Hg). }
  split; [| split].
  - split.
    + intros Hres Hage.
      destruct (valid_gender_dec g) as [Hg | Hg].
      * destruct (Hshape Hage Hg _ Hres) as (a & Ha).
        symmetry in Ha. now apply metric_error_not_age_error in Ha.
      * rewrite (Hinvalid Hage Hg) in Hres. discriminate Hres.
    + intros Hage. unfold get_hrv_percentile.
      now rewrite (age_group_of_invalid age Hage).
  - intros Hage. split.
    + intros Hres Hg.
      destruct (Hshape Hage Hg _ Hres) as (a & Ha).
      symmetry in Ha. now apply metric_error_not_gender_error in Ha.
    + now apply Hinvalid.
  - discriminate.
Qed.

Lemma get_hrv_percentile_failures_witness :
  get_hrv_percentile reference_stats 80 "martian" "sdNN" 50
    = Return (Message age_error) /\
  get_hrv_percentile reference_stats 30 "martian" "sdNN" 50
    = Return (Message gender_error).
Proof.
  split.
  - apply (proj1 (get_hrv_percentile_failures
                    reference_stats 80 "martian" "sdNN" 50)).
    unfold valid_age. lia.
  - destruct (get_hrv_percentile_failures
                reference_stats 30 "martian" "sdNN" 50) as (_ & Hgender & _).
    apply Hgender.
    + unfold valid_age. lia.
    + unfold valid_gender. cbn. intros [H | H]; discriminate H.
Defined.

(** C7.  The reliability tier of the report is a function of the sample
    size [n] of the group alone, with the thresholds [n < 50] Low,
    [50 <= n < 100] Moderate, [100 <= n < 200] Good, [n >= 200] High; on the
    shipped table the group male 25-34 (n = 330) is High and female 55-64
    (n = 95) is Moderate. *)
Theorem reliability_tiers (st : scipy_stats) :
  (forall n : Z,
     ((n < 50)%Z -> reliability_of n = "Low") /\
     ((50 <= n < 100)%Z -> reliability_of n = "Moderate") /\
     ((100 <= n < 200)%Z -> reliability_of n = "Good") /\
     ((200 <= n)%Z -> reliability_of n = "High")) /\
  (forall age g m v,
     valid_age age -> valid_gender g -> valid_metric m ->
     exists age_group n r,
       age_group_of age = Some age_group /\
       group_size (lower g) age_group = Some n /\
       get_hrv_percentile st age g m v = Return (Report r) /\
       sample_size r = n /\
       reliability r = reliability_of n) /\
  (forall age m v,
     (25 <= age <= 34)%Z -> valid_metric m ->
     exists r,
       get_hrv_percentile st age "male" m v = Return (Report r) /\
       sample_size r = 330%Z /\ reliability r = "High") /\
  (forall age m v,
     (55 <= age <= 64)%Z -> valid_metric m ->
     exists r,
       get_hrv_percentile st age "female" m v = Return (Report r) /\
       sample_size r = 95%Z /\ reliability r = "Moderate").
Proof.
  assert (Hall : forall age g m v,
     valid_age age -> valid_gender g -> valid_metric m ->
     exists age_group n r,
       age_group_of age = Some age_group /\
       group_size (lower g) age_group = Some n /\
       get_hrv_percentile st age g m v = Return (Report r) /\
       sample_size r = n /\
       reliability r = reliability_of n).
  { intros age g m v Hage Hg Hm.
    destruct (get_hrv_percentile_valid st age g m v Hage Hg Hm)
      as (age_group & mean & sd & n & Hgrp & _ & Hsize & _ & _ & Hres).
    exists age_group, n. eexists. repeat split; eauto. }
  split; [| split; [exact Hall | split]].
  - intros n. unfold reliability_of.
    repeat split; intros Hn;
      repeat match goal with
      | |- context [(?a <? ?b)%Z] => destruct (Z.ltb_spec a b); try lia
      end; reflexivity.
  - intros age m v Hage Hm.
    destruct (Hall age "male" m v) as (age_group & n & r & Hgrp & Hsize & Hres & Hn & Hrel);
      [unfold valid_age; lia | left; reflexivity | assumption |].
    assert (Hband : age_group_of age = Some "25-34").
    { unfold age_group_of.
      destruct (Z.leb_spec 25 age); [| lia].
      destruct (Z.leb_spec age 34); [| lia]. reflexivity. }
    rewrite Hband in Hgrp. injection Hgrp as <-.
    vm_compute in Hsize. injection Hsize as <-.
    exists r. subst. rewrite Hrel. repeat split; [assumption | assumption].
  - intros age m v Hage Hm.
    destruct (Hall age "female" m v) as (age_group & n & r & Hgrp & Hsize & Hres & Hn & Hrel);
      [unfold valid_age; lia | right; reflexivity | assumption |].
    assert (Hband : age_group_of age = Some "55-64").
    { unfold age_group_of.
      destruct (Z.leb_spec 25 age); [| lia].
      destruct (Z.leb_spec age 34); [lia |].
      destruct (Z.leb_spec 35 age); [| lia].
      destruct (Z.leb_spec age 44); [lia |].
      destruct (Z.leb_spec 45 age); [| lia].
      destruct (Z.leb_spec age 54); [lia |].
      destruct (Z.leb_spec 55 age); [| lia].
      destruct (Z.leb_spec age 64); [| lia]. reflexivity. }
    rewrite Hband in Hgrp. injection Hgrp as <-.
    vm_compute in Hsize. injection Hsize as <-.
    exists r. subst. rewrite Hrel. repeat split; [assumption | assumption].
Qed.

Lemma reliability_tiers_witness :
  reliability_of 49 = "Low" /\ reliability_of 50 = "Moderate" /\
  reliability_of 99 = "Moderate" /\ reliability_of 100 = "Good" /\
  reliability_of 199 = "Good" /\ reliability_of 200 = "High" /\
  (exists r,
     get_hrv_percentile reference_stats 30 "male" "sdNN" 50 = Return (Report r) /\
     sample_size r = 330%Z /\ reliability r = "High") /\
  (exists r,
     get_hrv_percentile reference_stats 60 "female" "HF" 50 = Return (Report r) /\
     sample_size r = 95%Z /\ reliability r = "Moderate").
Proof.
  destruct (reliability_tiers reference_stats) as (Htier & _ & Hmale & Hfemale).
  split; [apply (Htier 49%Z); lia |].
  split; [apply (Htier 50%Z); lia |].
  split; [apply (Htier 99%Z); lia |].
  split; [apply (Htier 100%Z); lia |].
  split; [apply (Htier 199%Z); lia |].
  split; [apply (Htier 200%Z); lia |].
  split.
  - apply Hmale; [lia | left; reflexivity].
  - apply Hfemale; [lia | right; right; reflexivity].
Defined.

(** C8 (amended).  In [get_normative_range] and [get_5th_percentile_value]
    an integer age outside the five bands makes the function return [None],
    and [None] is also what an unavailable metric returns: the two
    conditions are not told apart by the returned value. *)
Theorem range_functions_out_of_range_is_None (st : scipy_stats)
    (age : Z) (g m : string) :
  (~ valid_age age ->
     get_normative_range st age g m = Return None /\
     get_5th_percentile_value st age g m = Return None) /\
  (~ valid_metric m ->
     get_normative_range st age g m = Return None /\
     get_5th_percentile_value st age g m = Return None).
Proof.
  split; intros H.
  - destruct (range_out_of_range st age g m H). now split.
  - destruct (range_unknown_metric st age g m H). now split.
Qed.

Lemma range_functions_out_of_range_is_None_witness :
  (get_normative_range reference_stats 80 "male" "sdNN" = Return None /\
   get_5th_percentile_value reference_stats 80 "male" "sdNN" = Return None) /\
  (get_normative_range reference_stats 30 "male" "LF" = Return None /\
   get_5th_percentile_value reference_stats 30 "male" "LF" = Return None).
Proof.
  split.
  - apply (proj1 (range_functions_out_of_range_is_None
                    reference_stats 80 "male" "sdNN")).
    unfold valid_age. lia.
  - apply (proj2 (range_functions_out_of_range_is_None
                    reference_stats 30 "male" "LF")).
    unfold valid_metric. cbn. intros [H | [H | H]]; discriminate H.
Defined.

(** Against C8 as stated: age 80 (out of range) and the unknown metric LF at
    age 30 (a table miss) give the very same outcome in both functions. *)
Lemma range_functions_out_of_range_same_as_miss :
  get_normative_range reference_stats 80 "male" "sdNN"
    = get_normative_range reference_stats 30 "male" "LF" /\
  get_5th_percentile_value reference_stats 80 "male" "sdNN"
    = get_5th_percentile_value reference_stats 30 "male" "LF".
Proof. split; reflexivity. Qed.

(** C9 (amended).  On a valid key, with [norm.cdf] nondecreasing, the
    percentile of the report is nondecreasing in the user value: a larger
    value never gets a smaller percentile.  (It is not strictly increasing:
    see the lemma after the witness.) *)
Theorem percentile_nondecreasing (st : scipy_stats)
    (age : Z) (g m : string) (v1 v2 : R) :
  valid_age age -> valid_gender g -> valid_metric m ->
  cdf_nondecreasing st ->
  v1 <= v2 ->
  exists r1 r2,
    get_hrv_percentile st age g m v1 = Return (Report r1) /\
    get_hrv_percentile st age g m v2 = Return (Report r2) /\
    percentile r1 <= percentile r2.
Proof.
  intros Hage Hg Hm Hcdf Hv.
  destruct (get_hrv_percentile_valid st age g m v1 Hage Hg Hm)
    as (age_group & mean & sd & n & Hgrp & Hentry & Hsize & Hsd & Hn & Hres1).
  destruct (get_hrv_percentile_valid st age g m v2 Hage Hg Hm)
    as (age_group' & mean' & sd' & n' & Hgrp' & Hentry' & Hsize' & _ & _ & Hres2).
  rewrite Hgrp in Hgrp'. injection Hgrp' as <-.
  rewrite Hentry in Hentry'. injection Hentry' as <- <-.
  do 2 eexists. split; [exact Hres1 |]. split; [exact Hres2 |].
  cbn [percentile].
  assert (Hinv : 0 < / sd) by (now apply Rinv_0_lt_compat).
  apply Rmult_le_compat_r; [lra |]. apply Hcdf.
  unfold Rdiv. apply Rmult_le_compat_r; lra.
Qed.

Lemma percentile_nondecreasing_witness :
  exists r1 r2,
    get_hrv_percentile reference_stats 30 "male" "sdNN" 40 = Return (Report r1) /\
    get_hrv_percentile reference_stats 30 "male" "sdNN" 60 = Return (Report r2) /\
    percentile r1 <= percentile r2.
Proof.
  destruct valid_30_male_sdNN as (Hage & Hg & Hm).
  apply (percentile_nondecreasing reference_stats 30 "male" "sdNN" 40 60
           Hage Hg Hm reference_stats_cdf_nondecreasing).
  lra.
Defined.

(** Against C9 as stated (strictly increasing): for the key 30 / male / sdNN
    (mean 49.9, sd 19.8, n 330) the two user values 250.00000000000006 <
    250.00000000000009 have the same binary64 z-score,
    10.106060606060609, hence the same percentile whatever function of
    floats [norm.cdf] is. *)
Lemma percentile_not_strictly_increasing :
  norm_entry hrv_norms "male" "25-34" "sdNN" = Some (49.9, 19.8) /\
  group_size "male" "25-34" = Some 330%Z /\
  (250.00000000000006 <? 250.00000000000009)%float = true /\
  ((250.00000000000006 - 49.9) / 19.8 = 10.106060606060609)%float /\
  ((250.00000000000009 - 49.9) / 19.8 = 10.106060606060609)%float /\
  forall st : scipy_stats64,
    percentile64 (percentile_arithmetic64 st 49.9 19.8 330 250.00000000000006)
    = percentile64 (percentile_arithmetic64 st 49.9 19.8 330 250.00000000000009).
Proof.
  assert (H1 : ((250.00000000000006 - 49.9) / 19.8 = 10.106060606060609)%float)
    by (vm_compute; reflexivity).
  assert (H2 : ((250.00000000000009 - 49.9) / 19.8 = 10.106060606060609)%float)
    by (vm_compute; reflexivity).
  split; [reflexivity |]. split; [reflexivity |].
  split; [vm_compute; reflexivity |].
  split; [exact H1 |]. split; [exact H2 |].
  intros st. unfold percentile_arithmetic64. cbn [percentile64].
  now rewrite H1, H2.
Qed.

(** The same failure at ordinary values, where [norm.cdf] has saturated:
    the z-scores of 250.0 and 300.0 are 10.106060606060606 and
    12.63131313131313, and a [norm.cdf] that returns 1.0 at both (as
    scipy's does beyond about 8.3) gives both the percentile 100.0. *)
Lemma percentile_saturates (st : scipy_stats64) :
  norm_cdf64 st 10.106060606060606%float = 1%float ->
  norm_cdf64 st 12.63131313131313%float = 1%float ->
  percentile64 (percentile_arithmetic64 st 49.9 19.8 330 250) = 100%float /\
  percentile64 (percentile_arithmetic64 st 49.9 19.8 330 300) = 100%float.
Proof.
  intros H250 H300.
  assert (Hz1 : ((250 - 49.9) / 19.8 = 10.106060606060606)%float)
    by (vm_compute; reflexivity).
  assert (Hz2 : ((300 - 49.9) / 19.8 = 12.63131313131313)%float)
    by (vm_compute; reflexivity).
  unfold percentile_arithmetic64. cbn [percentile64].
  rewrite Hz1, Hz2, H250, H300. split; vm_compute; reflexivity.
Qed.

(** C10.  Neither range function validates the gender: with an age in
    range, a gender whose lowering is neither male nor female makes both
    return [None], the value they also return for an unavailable metric,
    while [get_hrv_percentile] answers the same input with its explicit
    gender message. *)
Theorem range_functions_do_not_validate_gender (st : scipy_stats)
    (age : Z) (g m : string) (v : R) :
  valid_age age -> ~ valid_gender g ->
  get_5th_percentile_value st age g m = Return None /\
  get_normative_range st age g m = Return None /\
  (forall g' m', ~ valid_metric m' ->
     get_5th_percentile_value st age g' m' = Return None /\
     get_normative_range st age g' m' = Return None) /\
  get_hrv_percentile st age g m v = Return (Message gender_error).
Proof.
  intros Hage Hg.
  destruct (range_invalid_gender st age g m Hg) as (H5 & Hrange).
  repeat split; try assumption.
  - now apply range_unknown_metric.
  - now apply range_unknown_metric.
  - destruct (age_group_of_valid age Hage) as (age_group & Hgrp & _).
    unfold get_hrv_percentile. rewrite Hgrp. cbv zeta.
    now rewrite (str_in_invalid_gender g Hg).
Qed.

Lemma range_functions_do_not_validate_gender_witness :
  valid_age 30 /\ ~ valid_gender "martian" /\
  get_5th_percentile_value reference_stats 30 "martian" "sdNN" = Return None /\
  get_normative_range reference_stats 30 "martian" "sdNN" = Return None /\
  get_hrv_percentile reference_stats 30 "martian" "sdNN" 50
    = Return (Message gender_error).
Proof.
  assert (Hage : valid_age 30) by (unfold valid_age; lia).
  assert (Hg : ~ valid_gender "martian")
    by (unfold valid_gender; cbn; intros [H | H]; discriminate H).
  destruct (range_functions_do_not_validate_gender
              reference_stats 30 "martian" "sdNN" 50 Hage Hg)
    as (H5 & Hrange & _ & Hpct).
  split; [exact Hage |].
  split; [exact Hg |].
  split; [exact H5 |].
  split; [exact Hrange | exact Hpct].
Defined.

(** ** Further properties of the three functions *)

Lemma valid_age_dec (age : Z) : {valid_age age} + {~ valid_age age}.
Proof.
  unfold valid_age.
  destruct (Z_le_dec 25 age); [| right; lia].
  destruct (Z_le_dec age 74); [left; lia | right; lia].
Qed.

Lemma valid_key_dec (age : Z) (g m : string) :
  {valid_key age g m} + {~ valid_key age g m}.
Proof.
  unfold valid_key.
  destruct (valid_age_dec age); [| right; tauto].
  destruct (valid_gender_dec g); [| right; tauto].
  destruct (valid_metric_dec m); [left; tauto | right; tauto].
Qed.

(** On a key that is not valid both range functions return [None]. *)
Lemma range_invalid_key (st : scipy_stats) (age : Z) (g m : string) :
  ~ valid_key age g m ->
  get_5th_percentile_value st age g m = Return None /\
  get_normative_range st age g m = Return None.
Proof.
  unfold valid_key. intros Hkey.
  destruct (valid_age_dec age); [| now apply range_out_of_range].
  destruct (valid_gender_dec g); [| now apply range_invalid_gender].
  destruct (valid_metric_dec m); [tauto | now apply range_unknown_metric].
Qed.

(** The five ways [get_hrv_percentile] can end, with the inputs of each. *)
Lemma get_hrv_percentile_classify (st : scipy_stats)
    (age : Z) (g m : string) (v : R) :
  (~ valid_age age /\
   get_hrv_percentile st age g m v = Return (Message age_error)) \/
  (valid_age age /\ ~ valid_gender g /\
   get_hrv_percentile st age g m v = Return (Message gender_error)) \/
  (valid_key age g m /\
   exists r, get_hrv_percentile st age g m v = Return (Report r)) \/
  (valid_age age /\ valid_gender g /\ m = "n" /\
   get_hrv_percentile st age g m v = Raise TypeError) \/
  (valid_age age /\ valid_gender g /\ ~ valid_metric m /\ m <> "n" /\
   exists age_group,
     get_hrv_percentile st age g m v =
       Return (Message (metric_error m (lower g) age_group))).
Proof.
  destruct (valid_age_dec age) as [Hage | Hage].
  2:{ left. split; [assumption |]. unfold get_hrv_percentile.
      now rewrite (age_group_of_invalid age Hage). }
  destruct (age_group_of_valid age Hage) as (age_group & Hgrp & _).
  destruct (valid_gender_dec g) as [Hg | Hg].
  2:{ right; left. split; [assumption |]. split; [assumption |].
      unfold get_hrv_percentile. rewrite Hgrp. cbv zeta.
      now rewrite (str_in_invalid_gender g Hg). }
  destruct (valid_metric_dec m) as [Hm | Hm].
  { right; right; left. split; [unfold valid_key; tauto |].
    destruct (get_hrv_percentile_valid st age g m v Hage Hg Hm)
      as (? & ? & ? & ? & _ & _ & _ & _ & _ & ->). eauto. }
  destruct (string_dec m "n") as [-> | Hn].
  - right; right; right; left. repeat (split; [assumption || reflexivity |]).
    now apply get_hrv_percentile_sample_size_key.
  - right; right; right; right. repeat (split; [assumption |]).
    exists age_group. now apply get_hrv_percentile_unknown_metric.
Qed.

Lemma n_not_valid_metric : ~ valid_metric "n".
Proof. unfold valid_metric. cbn. intros [H | [H | H]]; discriminate H. Qed.

Lemma metric_error_not_sd_zero_error (m g a : string) :
  metric_error m g a <> sd_zero_error.
Proof. unfold metric_error, sd_zero_error. cbn. discriminate. Qed.

(** X1.  [get_5th_percentile_value] and [get_normative_range] never raise:
    they return a value exactly on a valid key (age in 25..74, gender that
    lowers to male/female, metric that lowers to sdnn/rmssd/hf) and [None]
    on every other input; the number returned by the first is never
    negative. *)
Theorem range_functions_total (st : scipy_stats) (age : Z) (g m : string) :
  (valid_key age g m ->
     (exists x, get_5th_percentile_value st age g m = Return (Some x) /\ 0 <= x) /\
     (exists r, get_normative_range st age g m = Return (Some r))) /\
  (~ valid_key age g m ->
     get_5th_percentile_value st age g m = Return None /\
     get_normative_range st age g m = Return None).
Proof.
  split.
  - intros (Hage & Hg & Hm).
    destruct (range_valid st age g m Hage Hg Hm)
      as (age_group & mean & sd & Hgrp & Hentry & _).
    split.
    + eexists. split.
      * exact (get_5th_percentile_value_entry st _ _ _ _ _ _ Hgrp Hentry).
      * apply Rmax_l.
    + eexists. exact (get_normative_range_entry st _ _ _ _ _ _ Hgrp Hentry).
  - apply range_invalid_key.
Qed.

Lemma range_functions_total_witness :
  (exists x, get_5th_percentile_value reference_stats 30 "male" "sdNN"
               = Return (Some x) /\ 0 <= x) /\
  get_normative_range reference_stats 30 "male" "n" = Return None.
Proof.
  split.
  - apply (proj1 (range_functions_total reference_stats 30 "male" "sdNN")).
    exact valid_30_male_sdNN.
  - apply (proj2 (range_functions_total reference_stats 30 "male" "n")).
    unfold valid_key. intros (_ & _ & Hm). exact (n_not_valid_metric Hm).
Defined.

(** X2.  [get_hrv_percentile] returns the percentile report exactly on a
    valid key; on every other input it returns a message or raises. *)
Theorem get_hrv_percentile_report_iff (st : scipy_stats)
    (age : Z) (g m : string) (v : R) :
  (exists r, get_hrv_percentile st age g m v = Return (Report r))
  <-> valid_key age g m.
Proof.
  split.
  - intros (r & Hr).
    destruct (get_hrv_percentile_classify st age g m v)
      as [(_ & H) | [(_ & _ & H) | [(Hkey & _) | [(_ & _ & _ & H) | (_ & _ & _ & _ & a & H)]]]];
      try (rewrite H in Hr; discriminate Hr).
    exact Hkey.
  - intros (Hage & Hg & Hm).
    destruct (get_hrv_percentile_valid st age g m v Hage Hg Hm)
      as (? & ? & ? & ? & _ & _ & _ & _ & _ & Hres).
    eauto.
Qed.

Lemma get_hrv_percentile_report_iff_witness :
  (exists r, get_hrv_percentile reference_stats 30 "male" "sdNN" 50
               = Return (Report r)) /\
  ~ (exists r, get_hrv_percentile reference_stats 30 "male" "LF" 50
                 = Return (Report r)).
Proof.
  split.
  - apply (proj2 (get_hrv_percentile_report_iff
                    reference_stats 30 "male" "sdNN" 50)).
    exact valid_30_male_sdNN.
  - intros Hreport.
    apply (proj1 (get_hrv_percentile_report_iff
                    reference_stats 30 "male" "LF" 50)) in Hreport.
    destruct Hreport as (_ & _ & [H | [H | H]]); discriminate H.
Defined.

(** X3.  The only exception [get_hrv_percentile] lets escape is the
    [TypeError] of the metric name ["n"]: it raises exactly when the age is
    in range, the gender is valid and the metric is the string ["n"]
    (["N"] does not raise); no input makes it raise [KeyError],
    [ValueError] or [ZeroDivisionError]. *)
Theorem get_hrv_percentile_raises_iff (st : scipy_stats)
    (age : Z) (g m : string) (v : R) (e : exn) :
  get_hrv_percentile st age g m v = Raise e
  <-> (valid_age age /\ valid_gender g /\ m = "n" /\ e = TypeError).
Proof.
  split.
  - intros Hraise.
    destruct (get_hrv_percentile_classify st age g m v)
      as [(_ & H) | [(_ & _ & H) | [(_ & r & H) | [(Hage & Hg & Hm & H) | (_ & _ & _ & _ & a & H)]]]];
      rewrite H in Hraise; try discriminate Hraise.
    injection Hraise as <-. tauto.
  - intros (Hage & Hg & -> & ->).
    now apply get_hrv_percentile_sample_size_key.
Qed.

Lemma get_hrv_percentile_raises_iff_witness :
  get_hrv_percentile reference_stats 30 "male" "n" 50 = Raise TypeError /\
  get_hrv_percentile reference_stats 30 "male" "N" 50 <> Raise TypeError.
Proof.
  split.
  - apply (proj2 (get_hrv_percentile_raises_iff
                    reference_stats 30 "male" "n" 50 TypeError)).
    destruct valid_30_male_sdNN as (Hage & Hg & _). tauto.
  - intros Hraise.
    apply (proj1 (get_hrv_percentile_raises_iff
                    reference_stats 30 "male" "N" 50 TypeError)) in Hraise.
    destruct Hraise as (_ & _ & H & _). discriminate H.
Defined.

(** X4.  The zero-standard-deviation guard of [get_hrv_percentile] is never
    taken: no input makes the function return its "Standard deviation is
    zero" message, since every entry of the table has a positive standard
    deviation. *)
Theorem get_hrv_percentile_never_sd_zero (st : scipy_stats)
    (age : Z) (g m : string) (v : R) :
  get_hrv_percentile st age g m v <> Return (Message sd_zero_error).
Proof.
  intros Hres.
  destruct (get_hrv_percentile_classify st age g m v)
    as [(_ & H) | [(_ & _ & H) | [(_ & r & H) | [(_ & _ & _ & H) | (_ & _ & _ & _ & a & H)]]]];
    rewrite H in Hres;
    first [ discriminate Hres
          | injection Hres as Hmsg;
            now apply metric_error_not_sd_zero_error in Hmsg ].
Qed.

(** ** Case folding *)

Lemma lower_ascii_idempotent (c : ascii) : lower_ascii (lower_ascii c) = lower_ascii c.
Proof.
  destruct c as [[] [] [] [] [] [] [] []]; reflexivity.
Qed.

Lemma lower_idempotent (s : string) : lower (lower s) = lower s.
Proof.
  induction s as [| c s IH]; [reflexivity |].
  cbn [lower]. now rewrite lower_ascii_idempotent, IH.
Qed.

Lemma valid_gender_lower (g g' : string) :
  lower g = lower g' -> valid_gender g -> valid_gender g'.
Proof. unfold valid_gender. now intros <-. Qed.

Lemma valid_metric_lower (m m' : string) :
  lower m = lower m' -> valid_metric m -> valid_metric m'.
Proof. unfold valid_metric. now intros <-. Qed.

Lemma normalized_lower (m m' : string) :
  lower m = lower m' -> valid_metric m -> normalized m = normalized m'.
Proof.
  unfold valid_metric, normalized. intros <- [H | [H | H]]; rewrite H; reflexivity.
Qed.

Lemma valid_key_same_inputs (age age' : Z) (g g' m m' : string) :
  age_group_of age = age_group_of age' ->
  lower g = lower g' ->
  lower m = lower m' ->
  valid_key age g m -> valid_key age' g' m'.
Proof.
  intros Hage Hg Hm (Hva & Hvg & Hvm).
  destruct (age_group_of_valid age Hva) as (age_group & Hgrp & _).
  rewrite Hage in Hgrp.
  split; [exact (age_group_of_Some _ _ Hgrp) |].
  split; [exact (valid_gender_lower g g' Hg Hvg) |
          exact (valid_metric_lower m m' Hm Hvm)].
Qed.

(** X5.  The range functions depend on the age only through its band, and
    on the gender and the metric only up to letter case.  Inputs with the
    same band, the same lowered gender and the same lowered metric get the
    same answer from [get_5th_percentile_value], valid or not, and from
    [get_normative_range] the same two bounds (or [None] for both); only
    the metric name echoed in the text is the one that was typed. *)
Theorem range_functions_case_insensitive (st : scipy_stats)
    (age age' : Z) (g g' m m' : string) :
  age_group_of age = age_group_of age' ->
  lower g = lower g' ->
  lower m = lower m' ->
  get_5th_percentile_value st age g m = get_5th_percentile_value st age' g' m' /\
  match get_normative_range st age g m, get_normative_range st age' g' m' with
  | Return (Some b), Return (Some b') =>
      percentile_5th b = percentile_5th b' /\
      percentile_95th b = percentile_95th b' /\
      range_metric b = m /\ range_metric b' = m'
  | Return None, Return None => True
  | _, _ => False
  end.
Proof.
  intros Hage Hg Hm.
  destruct (valid_key_dec age g m) as [Hkey | Hkey].
  - pose proof (valid_key_same_inputs _ _ _ _ _ _ Hage Hg Hm Hkey) as Hkey'.
    destruct Hkey as (Hva & Hvg & Hvm).
    destruct (range_valid st age g m Hva Hvg Hvm)
      as (age_group & mean & sd & Hgrp & Hentry & _).
    assert (Hgrp' : age_group_of age' = Some age_group) by (now rewrite <- Hage).
    assert (Hentry' : norm_entry hrv_norms_range (lower g') age_group (normalized m')
                      = Some (mean, sd))
      by (now rewrite <- Hg, <- (normalized_lower m m' Hm Hvm)).
    rewrite (get_5th_percentile_value_entry st _ _ _ _ _ _ Hgrp Hentry).
    rewrite (get_5th_percentile_value_entry st _ _ _ _ _ _ Hgrp' Hentry').
    rewrite (get_normative_range_entry st _ _ _ _ _ _ Hgrp Hentry).
    rewrite (get_normative_range_entry st _ _ _ _ _ _ Hgrp' Hentry').
    cbn [percentile_5th percentile_95th range_metric].
    rewrite (normalized_lower m m' Hm Hvm). repeat split; reflexivity.
  - assert (Hkey' : ~ valid_key age' g' m').
    { intros H. apply Hkey.
      now apply (valid_key_same_inputs age' age g' g m' m). }
    destruct (range_invalid_key st age g m Hkey) as (-> & ->).
    destruct (range_invalid_key st age' g' m' Hkey') as (-> & ->).
    split; [reflexivity | exact I].
Qed.

Lemma range_functions_case_insensitive_witness :
  get_5th_percentile_value reference_stats 25 "MALE" "SdNn"
    = get_5th_percentile_value reference_stats 34 "male" "sdNN".
Proof.
  apply (range_functions_case_insensitive reference_stats 25 34
           "MALE" "male" "SdNn" "sdNN"); reflexivity.
Defined.

(** X6.  Letter case does not change what [get_hrv_percentile] computes.
    Two spellings of the gender that lower to the same string give the very
    same result (report, message or exception).  Two spellings of a metric
    that lower to the same one of sdnn/rmssd/hf give reports with the same
    percentile, bounds, sample size, reliability and warning; only the
    metric name echoed in the text is the one that was typed. *)
Theorem get_hrv_percentile_case_insensitive (st : scipy_stats)
    (age : Z) (g g' m m' : string) (v : R) :
  lower g = lower g' ->
  get_hrv_percentile st age g m v = get_hrv_percentile st age g' m v /\
  (lower m = lower m' -> valid_age age -> valid_gender g -> valid_metric m ->
   exists r r',
     get_hrv_percentile st age g m v = Return (Report r) /\
     get_hrv_percentile st age g' m' v = Return (Report r') /\
     percentile r' = percentile r /\
     percentile_lower r' = percentile_lower r /\
     percentile_upper r' = percentile_upper r /\
     sample_size r' = sample_size r /\
     reliability r' = reliability r /\
     warning r' = warning r /\
     report_metric r = m /\ report_metric r' = m').
Proof.
  intros Hg. split.
  - unfold get_hrv_percentile. now rewrite Hg.
  - intros Hm Hage Hvg Hvm.
    destruct (get_hrv_percentile_valid st age g m v Hage Hvg Hvm)
      as (age_group & mean & sd & n & Hgrp & Hentry & Hsize & _ & _ & Hres).
    destruct (get_hrv_percentile_valid st age g' m' v Hage
                (valid_gender_lower g g' Hg Hvg) (valid_metric_lower m m' Hm Hvm))
      as (age_group' & mean' & sd' & n' & Hgrp' & Hentry' & Hsize' & _ & _ & Hres').
    rewrite Hgrp in Hgrp'. injection Hgrp' as <-.
    rewrite <- Hg, <- (normalized_lower m m' Hm Hvm), Hentry in Hentry'.
    injection Hentry' as <- <-.
    rewrite <- Hg, Hsize in Hsize'. injection Hsize' as <-.
    do 2 eexists. split; [exact Hres |]. split; [exact Hres' |].
    cbn. repeat split; reflexivity.
Qed.

Lemma get_hrv_percentile_case_insensitive_witness :
  get_hrv_percentile reference_stats 30 "FeMale" "sdNN" 50
    = get_hrv_percentile reference_stats 30 "female" "sdNN" 50 /\
  exists r r',
    get_hrv_percentile reference_stats 30 "FeMale" "sdNN" 50 = Return (Report r) /\
    get_hrv_percentile reference_stats 30 "female" "SDNN" 50 = Return (Report r') /\
    percentile r' = percentile r.
Proof.
  destruct (get_hrv_percentile_case_insensitive reference_stats 30
              "FeMale" "female" "sdNN" "SDNN" 50 eq_refl) as (Hsame & Hmetric).
  split; [exact Hsame |].
  destruct Hmetric as (r & r' & Hr & Hr' & Hp & _).
  - reflexivity.
  - unfold valid_age. lia.
  - right. reflexivity.
  - left. reflexivity.
  - exists r, r'. auto.
Defined.

(** ** How the three functions fit together *)

Lemma reference_stats_ppf_ordered : ppf_ordered reference_stats.
Proof.
  unfold ppf_ordered, reference_stats. cbn [norm_ppf].
  destruct (Rlt_dec 0.05 0.5); [| lra].
  destruct (Rlt_dec 0.95 0.5); lra.
Qed.

(** Every mean of the table is above the largest floor of the range
    calculator. *)
Lemma hrv_norms_range_means (gender age_group metric : string) (mean sd : R) :
  In gender ["female"; "male"] ->
  In age_group ["25-34"; "35-44"; "45-54"; "55-64"; "65-74"] ->
  In metric ["sdNN"; "RMSSD"; "HF"] ->
  norm_entry hrv_norms_range gender age_group metric = Some (mean, sd) ->
  5 < mean /\ 0 < sd.
Proof.
  intros Hg Ha Hm. each_key Hg Ha Hm; eval_table;
    intros Hentry; injection Hentry as <- <-; lra.
Qed.

(** The entry of a valid key, the same in both tables. *)
Lemma valid_key_entry (age : Z) (g m : string) :
  valid_key age g m ->
  exists age_group mean sd n,
    age_group_of age = Some age_group /\
    norm_entry hrv_norms (lower g) age_group (normalized m) = Some (mean, sd) /\
    norm_entry hrv_norms_range (lower g) age_group (normalized m) = Some (mean, sd) /\
    group_size (lower g) age_group = Some n /\
    5 < mean /\ 0 < sd /\ (62 <= n)%Z.
Proof.
  intros (Hage & Hg & Hm).
  destruct (age_group_of_valid age Hage) as (age_group & Hgrp & Hin).
  destruct (hrv_norms_complete (lower g) age_group (normalized m)
              (lower_valid_gender g Hg) Hin (normalized_valid m Hm))
    as (mean & sd & n & Hentry & Hrange & Hsize & Hsd & Hn).
  destruct (hrv_norms_range_means (lower g) age_group (normalized m) mean sd
              (lower_valid_gender g Hg) Hin (normalized_valid m Hm) Hrange)
    as (Hmean & _).
  exists age_group, mean, sd, n. tauto.
Qed.

Lemma Rmax_floor_absorbs (f raw : R) : 0 <= f -> Rmax f (Rmax 0 raw) = Rmax f raw.
Proof.
  intros Hf. destruct (Rle_dec raw 0) as [Hneg | Hpos].
  - rewrite (Rmax_left 0 raw) by assumption.
    rewrite !Rmax_left by lra. reflexivity.
  - rewrite (Rmax_right 0 raw) by lra. reflexivity.
Qed.

(** X9.  On a valid key the lower bound of [get_normative_range] is the
    larger of the metric's floor (1.0 for RMSSD, 5.0 for HF, 0.1 for sdNN)
    and the value of [get_5th_percentile_value]; so the single value never
    exceeds the lower bound of the range, and the two agree exactly when
    the single value is at or above the floor. *)
Theorem fifth_percentile_value_below_range (st : scipy_stats)
    (age : Z) (g m : string) :
  valid_key age g m ->
  exists x b floor,
    get_5th_percentile_value st age g m = Return (Some x) /\
    get_normative_range st age g m = Return (Some b) /\
    (normalized m = "RMSSD" -> floor = 1.0) /\
    (normalized m = "HF" -> floor = 5.0) /\
    (normalized m = "sdNN" -> floor = 0.1) /\
    percentile_5th b = Rmax floor x /\
    x <= percentile_5th b /\
    (percentile_5th b = x <-> floor <= x).
Proof.
  intros (Hage & Hg & Hm).
  destruct (range_valid st age g m Hage Hg Hm)
    as (age_group & mean & sd & Hgrp & Hentry & _).
  pose proof (get_5th_percentile_value_entry st _ _ _ _ _ _ Hgrp Hentry) as Hx.
  pose proof (get_normative_range_entry st _ _ _ _ _ _ Hgrp Hentry) as Hb.
  set (raw := mean + norm_ppf st 0.05 * sd) in *.
  set (floor := if str_in (normalized m) ["RMSSD"; "HF"]
                then if String.eqb (normalized m) "RMSSD" then 1.0 else 5.0
                else 0.1) in *.
  assert (Hfloor : 0 <= floor).
  { unfold floor. destruct (str_in _ _); [destruct (String.eqb _ _) |]; lra. }
  exists (Rmax 0 raw). eexists. exists floor.
  split; [exact Hx |]. split; [exact Hb |].
  cbn [percentile_5th].
  split; [intros Hn; unfold floor; rewrite Hn; reflexivity |].
  split; [intros Hn; unfold floor; rewrite Hn; reflexivity |].
  split; [intros Hn; unfold floor; rewrite Hn; reflexivity |].
  rewrite <- (Rmax_floor_absorbs floor raw Hfloor).
  split; [reflexivity |]. split; [apply Rmax_r |].
  split.
  - intros Heq. rewrite <- Heq. apply Rmax_l.
  - intros Hle. now apply Rmax_right.
Qed.

Lemma fifth_percentile_value_below_range_witness :
  exists x b,
    get_5th_percentile_value reference_stats 60 "Female" "HF" = Return (Some x) /\
    get_normative_range reference_stats 60 "Female" "HF" = Return (Some b) /\
    percentile_5th b = Rmax 5.0 x.
Proof.
  destruct (fifth_percentile_value_below_range reference_stats 60 "Female" "HF"
              valid_60_female_HF)
    as (x & b & floor & Hx & Hb & _ & HHF & _ & Hmax & _).
  exists x, b. rewrite <- (HHF eq_refl). auto.
Defined.

(** X10.  The normative range is never empty or inverted: on a valid key
    the lower bound returned by [get_normative_range] is strictly below the
    upper bound, floors included (every mean of the table is above the
    largest floor).  (With [norm.ppf(0.05) < norm.ppf(0.95)] and
    [norm.ppf(0.95) >= 0].) *)
Theorem normative_range_ordered (st : scipy_stats) (age : Z) (g m : string) :
  valid_key age g m -> ppf_ordered st ->
  exists b,
    get_normative_range st age g m = Return (Some b) /\
    percentile_5th b < percentile_95th b.
Proof.
  intros Hkey (Hlt & Hpos).
  destruct (valid_key_entry age g m Hkey)
    as (age_group & mean & sd & n & Hgrp & _ & Hrange & _ & Hmean & Hsd & _).
  eexists. split.
  - exact (get_normative_range_entry st _ _ _ _ _ _ Hgrp Hrange).
  - cbn [percentile_5th percentile_95th].
    assert (Hup : mean <= mean + norm_ppf st 0.95 * sd) by nra.
    assert (Hraw : mean + norm_ppf st 0.05 * sd < mean + norm_ppf st 0.95 * sd)
      by nra.
    apply Rmax_lub_lt; [| exact Hraw].
    destruct (str_in _ _); [destruct (String.eqb _ _) |]; lra.
Qed.

Lemma normative_range_ordered_witness :
  exists b,
    get_normative_range reference_stats 60 "Female" "HF" = Return (Some b) /\
    percentile_5th b < percentile_95th b.
Proof.
  exact (normative_range_ordered reference_stats 60 "Female" "HF"
           valid_60_female_HF reference_stats_ppf_ordered).
Defined.

Lemma age_group_of_band (age : Z) (age_group : string) :
  age_group_of age = Some age_group ->
  (age_group = "25-34" /\ (25 <= age <= 34)%Z) \/
  (age_group = "35-44" /\ (35 <= age <= 44)%Z) \/
  (age_group = "45-54" /\ (45 <= age <= 54)%Z) \/
  (age_group = "55-64" /\ (55 <= age <= 64)%Z) \/
  (age_group = "65-74" /\ (65 <= age <= 74)%Z).
Proof.
  unfold age_group_of.
  repeat match goal with
  | |- context [(?a <=? ?b)%Z] => destruct (Z.leb_spec a b)
  end; cbn [andb]; intros Hsome; try discriminate Hsome;
    injection Hsome as <-; try lia; tauto.
Qed.

(** X12.  On the shipped table the small-sample warning and the reliability
    tier go together: a report carries the warning exactly when its tier is
    Moderate, no group is ever graded Low, and the warning is attached
    exactly for women aged 55 and over and men aged 65 and over. *)
Theorem warning_and_reliability (st : scipy_stats)
    (age : Z) (g m : string) (v : R) :
  valid_key age g m ->
  exists r,
    get_hrv_percentile st age g m v = Return (Report r) /\
    (warning r = true <-> reliability r = "Moderate") /\
    reliability r <> "Low" /\
    (warning r = true <->
       (lower g = "female" /\ (55 <= age)%Z) \/
       (lower g = "male" /\ (65 <= age)%Z)).
Proof.
  intros (Hage & Hg & Hm).
  destruct (get_hrv_percentile_valid st age g m v Hage Hg Hm)
    as (age_group & mean & sd & n & Hgrp & _ & Hsize & _ & Hn & Hres).
  eexists. split; [exact Hres |]. cbn [warning reliability].
  split; [| split].
  - unfold reliability_of.
    destruct (Z.ltb_spec n 50); [lia |].
    destruct (Z.ltb_spec n 100); [tauto |].
    destruct (Z.ltb_spec n 200); split; discriminate.
  - unfold reliability_of.
    destruct (Z.ltb_spec n 50); [lia |].
    destruct (Z.ltb_spec n 100); [discriminate |].
    destruct (Z.ltb_spec n 200); discriminate.
  - apply lower_valid_gender in Hg.
    remember (lower g) as gender eqn:Hlower. clear Hlower.
    apply age_group_of_band in Hgrp.
    cbn [In] in Hg.
    destruct Hg as [<- | [<- | []]];
      destruct Hgrp as [(-> & Hband) | [(-> & Hband) | [(-> & Hband) | [(-> & Hband) | (-> & Hband)]]]];
      vm_compute in Hsize; injection Hsize as <-; cbn;
      (split; [intros Hw; try discriminate Hw; (left; split; [reflexivity | lia]) || (right; split; [reflexivity | lia])
              | intros [(Hgen & Hlo) | (Hgen & Hlo)]; try discriminate Hgen; try lia; reflexivity]).
Qed.

Lemma warning_and_reliability_witness :
  exists r,
    get_hrv_percentile reference_stats 60 "Female" "HF" 20 = Return (Report r) /\
    warning r = true /\ reliability r = "Moderate".
Proof.
  destruct (warning_and_reliability reference_stats 60 "Female" "HF" 20
              valid_60_female_HF)
    as (r & Hres & Htier & _ & Hwho).
  exists r. split; [exact Hres |].
  assert (Hw : warning r = true).
  { apply Hwho. left. split; [reflexivity | lia]. }
  split; [exact Hw | now apply Htier].
Defined.

(** ** What the entry block prints *)

(** Signs of the unfloored 5th-percentile value in every group, for a
    quantile close to -1.645: positive for sdNN and RMSSD, negative for HF
    (each HF standard deviation exceeds its mean). *)
Lemma raw_5th_signs (gender age_group : string) (z : R) :
  In gender ["female"; "male"] ->
  In age_group ["25-34"; "35-44"; "45-54"; "55-64"; "65-74"] ->
  -1.645 < z < -1.644 ->
  (exists mean sd,
     norm_entry hrv_norms_range gender age_group "sdNN" = Some (mean, sd) /\
     0 < mean + z * sd) /\
  (exists mean sd,
     norm_entry hrv_norms_range gender age_group "RMSSD" = Some (mean, sd) /\
     0 < mean + z * sd) /\
  (exists mean sd,
     norm_entry hrv_norms_range gender age_group "HF" = Some (mean, sd) /\
     mean + z * sd < 0).
Proof.
  intros Hg Ha Hz. assert (Hm : In "sdNN" ["sdNN"]) by (left; reflexivity).
  each_key Hg Ha Hm;
    (split; [| split]); do 2 eexists;
    (split; [eval_table; reflexivity | lra]).
Qed.

Lemma print_if_truthy_positive (label : string) (x : R) :
  0 < x -> print_if_truthy label (Some x) = print (Fifth label x).
Proof.
  intros Hx. unfold print_if_truthy.
  destruct (Req_dec_T x 0); [lra | reflexivity].
Qed.

Lemma print_if_truthy_zero (label : string) :
  print_if_truthy label (Some 0) = out_ret tt.
Proof.
  unfold print_if_truthy. destruct (Req_dec_T 0 0); [reflexivity | lra].
Qed.

Lemma fifth_percentile_section_valid (st : scipy_stats) (age : Z) (g : string) :
  ppf_5th_approx st -> valid_age age -> valid_gender g ->
  exists x y,
    get_5th_percentile_value st age g "sdNN" = Return (Some x) /\
    get_5th_percentile_value st age g "RMSSD" = Return (Some y) /\
    get_5th_percentile_value st age g "HF" = Return (Some 0) /\
    0 < x /\ 0 < y /\
    fifth_percentile_section st age g =
      ((fifth_percentile_heading ++ [Fifth "sdNN" x; Fifth "RMSSD" y])%list, Done tt).
Proof.
  intros Hz Hage Hg.
  destruct (age_group_of_valid age Hage) as (age_group & Hgrp & Hin).
  destruct (raw_5th_signs (lower g) age_group (norm_ppf st 0.05)
              (lower_valid_gender g Hg) Hin Hz)
    as ((m1 & s1 & He1 & Hp1) & (m2 & s2 & He2 & Hp2) & (m3 & s3 & He3 & Hp3)).
  pose proof (get_5th_percentile_value_entry st age g "sdNN" _ _ _ Hgrp He1) as H1.
  pose proof (get_5th_percentile_value_entry st age g "RMSSD" _ _ _ Hgrp He2) as H2.
  pose proof (get_5th_percentile_value_entry st age g "HF" _ _ _ Hgrp He3) as H3.
  rewrite Rmax_right in H1 by lra.
  rewrite Rmax_right in H2 by lra.
  rewrite Rmax_left in H3 by lra.
  do 2 eexists.
  split; [exact H1 |]. split; [exact H2 |]. split; [exact H3 |].
  split; [exact Hp1 |]. split; [exact Hp2 |].
  unfold fifth_percentile_section. rewrite H1, H2, H3.
  cbn [run out_bind print app].
  rewrite !print_if_truthy_positive by assumption.
  rewrite print_if_truthy_zero. reflexivity.
Qed.

Lemma fifth_percentile_section_invalid (st : scipy_stats) (age : Z) (g : string) :
  ~ (valid_age age /\ valid_gender g) ->
  fifth_percentile_section st age g = (fifth_percentile_heading, Done tt).
Proof.
  intros Hbad.
  assert (Hnone : forall m, get_5th_percentile_value st age g m = Return None).
  { intros m. apply range_invalid_key. unfold valid_key. tauto. }
  unfold fifth_percentile_section. rewrite !Hnone. reflexivity.
Qed.

(** X13.  The closing section of both branches prints a 5th-percentile
    line for sdNN and for RMSSD and never one for HF: with an age in range
    and a valid gender the HF value is floored to 0 in every group, and
    [if hf_5th:] treats 0 as false, so the line is silently dropped.  With
    an age out of range or an invalid gender the section is the two title
    lines alone.  (With [norm.ppf(0.05)] in (-1.645, -1.644).) *)
Theorem fifth_percentile_section_lines (st : scipy_stats) (age : Z) (g : string) :
  ppf_5th_approx st ->
  (valid_age age /\ valid_gender g ->
   exists x y,
     get_5th_percentile_value st age g "sdNN" = Return (Some x) /\
     get_5th_percentile_value st age g "RMSSD" = Return (Some y) /\
     get_5th_percentile_value st age g "HF" = Return (Some 0) /\
     0 < x /\ 0 < y /\
     fifth_percentile_section st age g =
       ([Text (newline ++ "5th Percentile Values:"); Text (str_mul "-" 25);
         Fifth "sdNN" x; Fifth "RMSSD" y], Done tt)) /\
  (~ (valid_age age /\ valid_gender g) ->
   fifth_percentile_section st age g =
     ([Text (newline ++ "5th Percentile Values:"); Text (str_mul "-" 25)], Done tt)).
Proof.
  intros Hz. split.
  - intros (Hage & Hg). now apply fifth_percentile_section_valid.
  - apply fifth_percentile_section_invalid.
Qed.

Lemma fifth_percentile_section_lines_witness :
  exists x y,
    0 < x /\ 0 < y /\
    fifth_percentile_section reference_stats 30 "male" =
      ([Text (newline ++ "5th Percentile Values:"); Text (str_mul "-" 25);
        Fifth "sdNN" x; Fifth "RMSSD" y], Done tt).
Proof.
  destruct (proj1 (fifth_percentile_section_lines reference_stats 30 "male"
                     reference_stats_ppf_5th))
    as (x & y & _ & _ & _ & Hx & Hy & Hsec).
  - destruct valid_30_male_sdNN as (Hage & Hg & _). tauto.
  - exists x, y. auto.
Defined.

(** [get_hrv_percentile] called with one of the three canonical names
    always returns: the age message, the gender message or the report. *)
Lemma get_hrv_percentile_canonical (st : scipy_stats)
    (age : Z) (g m : string) (v : R) :
  valid_metric m ->
  (~ valid_age age /\
   get_hrv_percentile st age g m v = Return (Message age_error)) \/
  (valid_age age /\ ~ valid_gender g /\
   get_hrv_percentile st age g m v = Return (Message gender_error)) \/
  (valid_age age /\ valid_gender g /\
   exists r, get_hrv_percentile st age g m v = Return (Report r)).
Proof.
  intros Hm.
  destruct (get_hrv_percentile_classify st age g m v)
    as [H | [H | [((Hage & Hg & _) & H) | [(_ & _ & -> & _) | (_ & _ & Hbad & _)]]]].
  - now left.
  - now right; left.
  - right; right. tauto.
  - now apply n_not_valid_metric in Hm.
  - contradiction.
Qed.

Lemma get_hrv_percentile_canonical_returns (st : scipy_stats)
    (age : Z) (g m : string) (v : R) :
  valid_metric m -> exists res, get_hrv_percentile st age g m v = Return res.
Proof.
  intros Hm.
  destruct (get_hrv_percentile_canonical st age g m v Hm)
    as [(_ & H) | [(_ & _ & H) | (_ & _ & r & H)]]; rewrite H; eauto.
Qed.

Lemma valid_metric_sdNN : valid_metric "sdNN".
Proof. left; reflexivity. Qed.

Lemma valid_metric_RMSSD : valid_metric "RMSSD".
Proof. right; left; reflexivity. Qed.

Lemma valid_metric_HF : valid_metric "HF".
Proof. right; right; reflexivity. Qed.

Lemma print_if_truthy_done (label : string) (v : option R) :
  exists o, print_if_truthy label v = (o, Done tt) /\ Forall not_error_line o.
Proof.
  unfold print_if_truthy, print, out_ret.
  destruct v as [x |]; [destruct (Req_dec_T x 0) |];
    eexists; (split; [reflexivity | repeat constructor]).
Qed.

Lemma get_5th_percentile_value_returns (st : scipy_stats)
    (age : Z) (g m : string) :
  exists v, get_5th_percentile_value st age g m = Return v.
Proof.
  destruct (valid_key_dec age g m) as [(Hage & Hg & Hm) | Hkey].
  - destruct (range_valid st age g m Hage Hg Hm)
      as (age_group & mean & sd & Hgrp & Hentry & _).
    rewrite (get_5th_percentile_value_entry st _ _ _ _ _ _ Hgrp Hentry). eauto.
  - rewrite (proj1 (range_invalid_key st age g m Hkey)). eauto.
Qed.

(** The closing section always runs to its end. *)
Lemma fifth_percentile_section_done (st : scipy_stats) (age : Z) (g : string) :
  exists o,
    fifth_percentile_section st age g = (o, Done tt) /\ Forall not_error_line o.
Proof.
  unfold fifth_percentile_section.
  destruct (get_5th_percentile_value_returns st age g "sdNN") as (v1 & ->).
  destruct (get_5th_percentile_value_returns st age g "RMSSD") as (v2 & ->).
  destruct (get_5th_percentile_value_returns st age g "HF") as (v3 & ->).
  cbn [run out_bind print app].
  destruct (print_if_truthy_done "sdNN" v1) as (o1 & -> & H1).
  destruct (print_if_truthy_done "RMSSD" v2) as (o2 & -> & H2).
  destruct (print_if_truthy_done "HF" v3) as (o3 & -> & H3).
  cbn [run out_bind print app]. eexists. split; [reflexivity |].
  repeat (apply Forall_cons; [exact I |]).
  repeat (apply Forall_app; split; try assumption).
Qed.

(** The command-line body once the first four arguments have parsed. *)
Lemma cli_body_parsed (bi : builtins) (st : scipy_stats) (argv : list string)
    (age : Z) (v1 v2 : R) (res1 res2 : hrv_result) (o : list printed) :
  py_int bi (nth 1 argv "") = Some age ->
  py_float bi (nth 3 argv "") = Some v1 ->
  py_float bi (nth 4 argv "") = Some v2 ->
  get_hrv_percentile st age (nth 2 argv "") "sdNN" v1 = Return res1 ->
  get_hrv_percentile st age (nth 2 argv "") "RMSSD" v2 = Return res2 ->
  fifth_percentile_section st age (nth 2 argv "") = (o, Done tt) ->
  cli_body bi st argv =
    if (6 <=? List.length argv)%nat then
      match py_float bi (nth 5 argv "") with
      | Some v3 =>
          match get_hrv_percentile st age (nth 2 argv "") "HF" v3 with
          | Return res3 =>
              ((cli_heading ++ [Result res1; Result res2; Result res3] ++ o)%list,
               Done tt)
          | Raise e =>
              ((cli_heading ++ [Result res1; Result res2])%list, Stop (Exc e))
          end
      | None => ((cli_heading ++ [Result res1; Result res2])%list,
                 Stop (Exc ValueError))
      end
    else ((cli_heading ++ [Result res1; Result res2] ++ o)%list, Done tt).
Proof.
  intros Hage Hv1 Hv2 Hres1 Hres2 Hsec.
  unfold cli_body. rewrite Hage, Hv1, Hv2.
  cbn [parsed out_bind print app]. rewrite Hres1, Hres2, Hsec.
  cbn [run out_bind print app].
  destruct (6 <=? List.length argv)%nat; [| reflexivity].
  destruct (py_float bi (nth 5 argv "")) as [v3 |]; [| reflexivity].
  cbn [parsed out_bind print app].
  destruct (get_hrv_percentile st age (nth 2 argv "") "HF" v3); reflexivity.
Qed.

(** The command-line body when one of the first four arguments does not
    parse: nothing has been printed yet. *)
Lemma cli_body_unparsed (bi : builtins) (st : scipy_stats) (argv : list string) :
  py_int bi (nth 1 argv "") = None \/
  py_float bi (nth 3 argv "") = None \/
  py_float bi (nth 4 argv "") = None ->
  cli_body bi st argv = ([], Stop (Exc ValueError)).
Proof.
  intros Hbad. unfold cli_body.
  destruct (py_int bi (nth 1 argv "")) as [age |]; [| reflexivity].
  destruct (py_float bi (nth 3 argv "")) as [v1 |]; [| reflexivity].
  destruct (py_float bi (nth 4 argv "")) as [v2 |]; [| reflexivity].
  destruct Hbad as [H | [H | H]]; discriminate H.
Qed.

Lemma not_error_line_In (o : list printed) :
  Forall not_error_line o -> forall s, ~ In (ErrorLine s) o.
Proof.
  intros Hall s Hin. rewrite Forall_forall in Hall. exact (Hall _ Hin).
Qed.

Lemma cli_never_error_line (bi : builtins) (st : scipy_stats)
    (argv : list string) (s : signal) :
  ~ In (ErrorLine s) (main_cli bi st argv).
Proof.
  apply not_error_line_In. unfold main_cli.
  destruct (py_int bi (nth 1 argv "")) as [age |] eqn:Hage.
  2:{ rewrite cli_body_unparsed by tauto. repeat constructor. }
  destruct (py_float bi (nth 3 argv "")) as [v1 |] eqn:Hv1.
  2:{ rewrite cli_body_unparsed by tauto. repeat constructor. }
  destruct (py_float bi (nth 4 argv "")) as [v2 |] eqn:Hv2.
  2:{ rewrite cli_body_unparsed by tauto. repeat constructor. }
  destruct (get_hrv_percentile_canonical_returns st age (nth 2 argv "") "sdNN" v1
              valid_metric_sdNN) as (res1 & Hres1).
  destruct (get_hrv_percentile_canonical_returns st age (nth 2 argv "") "RMSSD" v2
              valid_metric_RMSSD) as (res2 & Hres2).
  destruct (fifth_percentile_section_done st age (nth 2 argv "")) as (o & Hsec & Ho).
  rewrite (cli_body_parsed bi st argv age v1 v2 res1 res2 o Hage Hv1 Hv2 Hres1 Hres2 Hsec).
  destruct (6 <=? List.length argv)%nat.
  - destruct (py_float bi (nth 5 argv "")) as [v3 |].
    + destruct (get_hrv_percentile_canonical_returns st age (nth 2 argv "") "HF" v3
                  valid_metric_HF) as (res3 & ->).
      repeat (apply Forall_cons; [exact I |]). exact Ho.
    + repeat constructor.
  - repeat (apply Forall_cons; [exact I |]). exact Ho.
Qed.

Lemma cli_unparsable_argument (bi : builtins) (st : scipy_stats)
    (argv : list string) :
  (py_int bi (nth 1 argv "") = None \/
   py_float bi (nth 3 argv "") = None \/
   py_float bi (nth 4 argv "") = None ->
   main_cli bi st argv =
     [Text "Error: Please provide valid numeric values"; Text usage]) /\
  (forall age v1 v2,
     py_int bi (nth 1 argv "") = Some age ->
     py_float bi (nth 3 argv "") = Some v1 ->
     py_float bi (nth 4 argv "") = Some v2 ->
     (6 <= List.length argv)%nat ->
     py_float bi (nth 5 argv "") = None ->
     exists res1 res2,
       get_hrv_percentile st age (nth 2 argv "") "sdNN" v1 = Return res1 /\
       get_hrv_percentile st age (nth 2 argv "") "RMSSD" v2 = Return res2 /\
       main_cli bi st argv =
         [Text "HRV Percentile Calculator"; Text (str_mul "=" 25);
          Result res1; Result res2;
          Text "Error: Please provide valid numeric values"; Text usage]).
Proof.
  split.
  - intros Hbad. unfold main_cli. now rewrite cli_body_unparsed.
  - intros age v1 v2 Hage Hv1 Hv2 Hlen Hhf.
    destruct (get_hrv_percentile_canonical_returns st age (nth 2 argv "") "sdNN" v1
                valid_metric_sdNN) as (res1 & Hres1).
    destruct (get_hrv_percentile_canonical_returns st age (nth 2 argv "") "RMSSD" v2
                valid_metric_RMSSD) as (res2 & Hres2).
    destruct (fifth_percentile_section_done st age (nth 2 argv "")) as (o & Hsec & _).
    exists res1, res2. split; [exact Hres1 |]. split; [exact Hres2 |].
    unfold main_cli.
    rewrite (cli_body_parsed bi st argv age v1 v2 res1 res2 o Hage Hv1 Hv2 Hres1 Hres2 Hsec).
    apply Nat.leb_le in Hlen. rewrite Hlen, Hhf. reflexivity.
Qed.

Lemma cli_valid_input (bi : builtins) (st : scipy_stats)
    (argv : list string) (age : Z) (v1 v2 : R) :
  ppf_5th_approx st ->
  py_int bi (nth 1 argv "") = Some age ->
  py_float bi (nth 3 argv "") = Some v1 ->
  py_float bi (nth 4 argv "") = Some v2 ->
  valid_age age -> valid_gender (nth 2 argv "") ->
  ((6 <= List.length argv)%nat -> py_float bi (nth 5 argv "") <> None) ->
  exists r1 r2 x y hf,
    get_hrv_percentile st age (nth 2 argv "") "sdNN" v1 = Return (Report r1) /\
    get_hrv_percentile st age (nth 2 argv "") "RMSSD" v2 = Return (Report r2) /\
    get_5th_percentile_value st age (nth 2 argv "") "sdNN" = Return (Some x) /\
    get_5th_percentile_value st age (nth 2 argv "") "RMSSD" = Return (Some y) /\
    main_cli bi st argv =
      ([Text "HRV Percentile Calculator"; Text (str_mul "=" 25);
        Result (Report r1); Result (Report r2)]
       ++ hf
       ++ [Text (newline ++ "5th Percentile Values:"); Text (str_mul "-" 25);
           Fifth "sdNN" x; Fifth "RMSSD" y])%list /\
    (((List.length argv < 6)%nat /\ hf = []) \/
     ((6 <= List.length argv)%nat /\
      exists v3 r3,
        py_float bi (nth 5 argv "") = Some v3 /\
        get_hrv_percentile st age (nth 2 argv "") "HF" v3 = Return (Report r3) /\
        hf = [Result (Report r3)])).
Proof.
  intros Hz Hage Hv1 Hv2 Hvalid Hg Hhf.
  assert (Hreport : forall m v, valid_metric m ->
            exists r, get_hrv_percentile st age (nth 2 argv "") m v
                      = Return (Report r)).
  { intros m v Hm.
    destruct (get_hrv_percentile_canonical st age (nth 2 argv "") m v Hm)
      as [(Hbad & _) | [(_ & Hbad & _) | (_ & _ & H)]]; tauto. }
  destruct (Hreport "sdNN" v1 valid_metric_sdNN) as (r1 & Hr1).
  destruct (Hreport "RMSSD" v2 valid_metric_RMSSD) as (r2 & Hr2).
  destruct (fifth_percentile_section_valid st age (nth 2 argv "") Hz Hvalid Hg)
    as (x & y & Hx & Hy & _ & _ & _ & Hsec).
  exists r1, r2, x, y.
  unfold main_cli.
  rewrite (cli_body_parsed bi st argv age v1 v2 _ _ _ Hage Hv1 Hv2 Hr1 Hr2 Hsec).
  destruct (6 <=? List.length argv)%nat eqn:Hlen.
  - apply Nat.leb_le in Hlen.
    destruct (py_float bi (nth 5 argv "")) as [v3 |] eqn:Hv3;
      [| now contradiction (Hhf Hlen)].
    destruct (Hreport "HF" v3 valid_metric_HF) as (r3 & Hr3). rewrite Hr3.
    exists [Result (Report r3)].
    repeat (split; [assumption || reflexivity |]).
    right. split; [assumption |]. exists v3, r3. auto.
  - apply Nat.leb_gt in Hlen.
    exists []. repeat (split; [assumption || reflexivity |]).
    left. auto.
Qed.

(** *** What the user types *)

Lemma read_metrics_exchanges (bi : builtins) (exchanges : list (string * string))
    (done_line : string) (rest : list string) :
  Forall (names_metric bi) exchanges ->
  lower (strip bi done_line) = "done" ->
  forall acc,
    read_metrics bi acc (flat_map exchange_lines exchanges ++ done_line :: rest)%list =
      ((flat_map (exchange_printed bi) exchanges ++ [Prompt metric_prompt])%list,
       rest,
       Done (acc ++ flat_map (collected bi) exchanges)%list).
Proof.
  intros Hnames Hdone.
  induction Hnames as [| [name answer] exchanges (Hne & Hnot) _ IH]; intros acc.
  - cbn [flat_map app read_metrics]. rewrite Hdone. cbn.
    now rewrite app_nil_r.
  - cbn [flat_map exchange_lines fst snd app read_metrics].
    cbn [fst] in Hne, Hnot.
    apply String.eqb_neq in Hnot. rewrite Hnot, Hne.
    unfold exchange_printed, collected. cbn [fst snd].
    destruct (py_float bi answer) as [value |]; rewrite IH.
    + cbn [app]. now rewrite <- app_assoc.
    + cbn [app]. reflexivity.
Qed.

(** X17.  The metric loop of the interactive branch collects what was typed,
    in order: for a run of name/value exchanges closed by "done" (any letter
    case, surrounding blanks stripped), the list it ends with holds the
    stripped name and the parsed value of every exchange whose value parsed;
    an exchange whose value does not parse prints "Invalid value. Please
    enter a number." and adds nothing; lines after "done" are left unread. *)
Theorem read_metrics_collects (bi : builtins) (exchanges : list (string * string))
    (done_line : string) (rest : list string) :
  Forall (names_metric bi) exchanges ->
  lower (strip bi done_line) = "done" ->
  read_metrics bi [] (flat_map exchange_lines exchanges ++ done_line :: rest)%list =
    ((flat_map (exchange_printed bi) exchanges ++ [Prompt metric_prompt])%list,
     rest,
     Done (flat_map (collected bi) exchanges)).
Proof.
  intros Hnames Hdone.
  exact (read_metrics_exchanges bi exchanges done_line rest Hnames Hdone []).
Qed.

(** *** The results loop *)

Lemma get_hrv_percentile_returns_unless (st : scipy_stats)
    (age : Z) (g m : string) (v : R) :
  m <> "n" \/ ~ (valid_age age /\ valid_gender g) ->
  exists res, get_hrv_percentile st age g m v = Return res.
Proof.
  intros Hsafe.
  destruct (get_hrv_percentile_classify st age g m v)
    as [(_ & H) | [(_ & _ & H) | [(_ & r & H) | [(Hage & Hg & Hm & _) | (_ & _ & _ & _ & a & H)]]]];
    try (rewrite H; eauto).
  tauto.
Qed.

Lemma print_results_all (st : scipy_stats) (age : Z) (g : string)
    (metrics : list (string * R)) :
  ~ In "n" (map fst metrics) \/ ~ (valid_age age /\ valid_gender g) ->
  exists results,
    results_of st age g metrics results /\
    print_results st age g metrics = (map Result results, Done tt).
Proof.
  intros Hsafe. induction metrics as [| [m v] metrics IH].
  - exists []. split; [constructor | reflexivity].
  - destruct IH as (results & Hres & Hprint).
    { cbn [map In] in Hsafe. tauto. }
    destruct (get_hrv_percentile_returns_unless st age g m v) as (res & Hm).
    { cbn [map In fst] in Hsafe.
      destruct (string_dec m "n") as [-> | Hn]; [tauto | now left]. }
    exists (res :: results). split; [constructor; assumption |].
    cbn [print_results]. rewrite Hm. cbn [run out_bind print app].
    rewrite Hprint. reflexivity.
Qed.

Lemma print_results_abort (st : scipy_stats) (age : Z) (g : string)
    (before after : list (string * R)) (v : R) :
  valid_age age -> valid_gender g ->
  ~ In "n" (map fst before) ->
  exists results,
    results_of st age g before results /\
    print_results st age g (before ++ ("n", v) :: after)%list =
      (map Result results, Stop (Exc TypeError)).
Proof.
  intros Hage Hg Hbefore. induction before as [| [m w] before IH].
  - exists []. split; [constructor |].
    cbn [app print_results].
    now rewrite (get_hrv_percentile_sample_size_key st age g v Hage Hg).
  - destruct IH as (results & Hres & Hprint).
    { cbn [map In] in Hbefore. tauto. }
    destruct (get_hrv_percentile_returns_unless st age g m w) as (res & Hm).
    { left. cbn [map In fst] in Hbefore. intros ->. tauto. }
    exists (res :: results). split; [constructor; assumption |].
    cbn [app print_results]. rewrite Hm. cbn [run out_bind print app].
    rewrite Hprint. reflexivity.
Qed.

(** *** A whole interactive session *)

Lemma interactive_body_session (bi : builtins) (st : scipy_stats)
    (age_line gender_line done_line : string)
    (exchanges : list (string * string)) (rest : list string) (age : Z) :
  py_int bi age_line = Some age ->
  Forall (names_metric bi) exchanges ->
  lower (strip bi done_line) = "done" ->
  interactive_body bi st (session age_line gender_line exchanges done_line rest) =
    match flat_map (collected bi) exchanges with
    | [] => ((session_asked bi exchanges ++ [Text "No metrics entered. Exiting."])%list,
             rest, Stop SystemExit)
    | metrics =>
        ((session_asked bi exchanges
          ++ fst (report_batch st age (strip bi gender_line) metrics))%list,
         rest,
         snd (report_batch st age (strip bi gender_line) metrics))
    end.
Proof.
  intros Hage Hnames Hdone.
  unfold session, interactive_body. rewrite Hage.
  rewrite (read_metrics_exchanges bi exchanges done_line rest Hnames Hdone []).
  cbn [app]. unfold session_asked.
  destruct (flat_map (collected bi) exchanges) as [| e metrics].
  - cbn [app]. now rewrite <- !app_assoc.
  - destruct (report_batch st age (strip bi gender_line) (e :: metrics)) as (o', r').
    cbn [fst snd app]. now rewrite <- !app_assoc.
Qed.

Lemma report_batch_done (st : scipy_stats) (age : Z) (g : string)
    (metrics : list (string * R)) (o s : list printed) :
  print_results st age g metrics = (o, Done tt) ->
  fifth_percentile_section st age g = (s, Done tt) ->
  report_batch st age g metrics = ((results_heading ++ o ++ s)%list, Done tt).
Proof.
  intros Hprint Hsec. unfold report_batch. rewrite Hprint, Hsec. reflexivity.
Qed.

Lemma report_batch_stopped (st : scipy_stats) (age : Z) (g : string)
    (metrics : list (string * R)) (o : list printed) (e : signal) :
  print_results st age g metrics = (o, Stop e) ->
  report_batch st age g metrics = ((results_heading ++ o)%list, Stop e).
Proof.
  intros Hprint. unfold report_batch. rewrite Hprint. reflexivity.
Qed.

Lemma interactive_n_aborts (bi : builtins) (st : scipy_stats)
    (age_line gender_line done_line : string)
    (exchanges : list (string * string)) (rest : list string)
    (age : Z) (before after : list (string * R)) (v : R) :
  py_int bi age_line = Some age ->
  valid_age age -> valid_gender (strip bi gender_line) ->
  Forall (names_metric bi) exchanges ->
  lower (strip bi done_line) = "done" ->
  flat_map (collected bi) exchanges = (before ++ ("n", v) :: after)%list ->
  ~ In "n" (map fst before) ->
  exists results,
    results_of st age (strip bi gender_line) before results /\
    main_interactive bi st (session age_line gender_line exchanges done_line rest) =
      (interactive_heading ++ session_asked bi exchanges ++ results_heading
       ++ map Result results ++ [ErrorLine (Exc TypeError)])%list.
Proof.
  intros Hage Hvalid Hg Hnames Hdone Hmetrics Hbefore.
  destruct (print_results_abort st age (strip bi gender_line) before after v
              Hvalid Hg Hbefore) as (results & Hres & Hprint).
  exists results. split; [exact Hres |].
  unfold main_interactive.
  rewrite (interactive_body_session bi st _ _ _ _ _ age Hage Hnames Hdone).
  destruct (flat_map (collected bi) exchanges) as [| e metrics] eqn:Hlist.
  - destruct before; discriminate Hmetrics.
  - cbv beta iota zeta. rewrite Hmetrics, (report_batch_stopped _ _ _ _ _ _ Hprint).
    cbn [fst snd]. now rewrite <- !app_assoc.
Qed.

Lemma interactive_results (bi : builtins) (st : scipy_stats)
    (age_line gender_line done_line : string)
    (exchanges : list (string * string)) (rest : list string) (age : Z) :
  py_int bi age_line = Some age ->
  Forall (names_metric bi) exchanges ->
  lower (strip bi done_line) = "done" ->
  flat_map (collected bi) exchanges <> [] ->
  ~ In "n" (map fst (flat_map (collected bi) exchanges)) \/
    ~ (valid_age age /\ valid_gender (strip bi gender_line)) ->
  exists results section,
    results_of st age (strip bi gender_line)
      (flat_map (collected bi) exchanges) results /\
    fifth_percentile_section st age (strip bi gender_line) = (section, Done tt) /\
    (forall s, ~ In (ErrorLine s) section) /\
    main_interactive bi st (session age_line gender_line exchanges done_line rest) =
      (interactive_heading ++ session_asked bi exchanges ++ results_heading
       ++ map Result results ++ section)%list.
Proof.
  intros Hage Hnames Hdone Hsome Hsafe.
  destruct (print_results_all st age (strip bi gender_line) _ Hsafe)
    as (results & Hres & Hprint).
  destruct (fifth_percentile_section_done st age (strip bi gender_line))
    as (section & Hsec & Hclean).
  exists results, section.
  split; [exact Hres |]. split; [exact Hsec |].
  split; [now apply not_error_line_In |].
  unfold main_interactive.
  rewrite (interactive_body_session bi st _ _ _ _ _ age Hage Hnames Hdone).
  destruct (flat_map (collected bi) exchanges) as [| e metrics] eqn:Hlist;
    [contradiction |].
  cbv beta iota zeta. rewrite (report_batch_done _ _ _ _ _ _ Hprint Hsec).
  cbn [fst snd]. rewrite <- ?app_assoc. reflexivity.
Qed.

Lemma interactive_early_exits (bi : builtins) (st : scipy_stats) :
  (forall age_line rest,
     py_int bi age_line = None ->
     main_interactive bi st (age_line :: rest) =
       (interactive_heading ++
        [Prompt age_prompt;
         Text "Invalid input. Please enter valid numbers for age and HRV values."])%list) /\
  (forall age_line gender_line done_line exchanges rest age,
     py_int bi age_line = Some age ->
     Forall (names_metric bi) exchanges ->
     lower (strip bi done_line) = "done" ->
     flat_map (collected bi) exchanges = [] ->
     main_interactive bi st (session age_line gender_line exchanges done_line rest) =
       (interactive_heading ++ session_asked bi exchanges
        ++ [Text "No metrics entered. Exiting."])%list).
Proof.
  split.
  - intros age_line rest Hage.
    unfold main_interactive, interactive_body. now rewrite Hage.
  - intros age_line gender_line done_line exchanges rest age Hage Hnames Hdone Hnone.
    unfold main_interactive.
    rewrite (interactive_body_session bi st _ _ _ _ _ age Hage Hnames Hdone).
    now rewrite Hnone.
Qed.

Lemma read_metrics_collects_witness :
  read_metrics reference_builtins []
    ["sdNN"; "50"; " RMSSD "; "high"; "HF"; "100"; " Done"; "unread"] =
    ([Prompt metric_prompt; Prompt (value_prompt "sdNN");
      Prompt metric_prompt; Prompt (value_prompt "RMSSD");
      Text "Invalid value. Please enter a number.";
      Prompt metric_prompt; Prompt (value_prompt "HF");
      Prompt metric_prompt],
     ["unread"],
     Done [("sdNN", IZR 50); ("HF", IZR 100)]).
Proof.
  apply (read_metrics_collects reference_builtins
           [("sdNN", "50"); (" RMSSD ", "high"); ("HF", "100")] " Done" ["unread"]).
  - repeat constructor; cbn; discriminate.
  - reflexivity.
Defined.

Lemma cli_invalid_age_or_gender (bi : builtins) (st : scipy_stats)
    (argv : list string) (age : Z) (v1 v2 : R) :
  py_int bi (nth 1 argv "") = Some age ->
  py_float bi (nth 3 argv "") = Some v1 ->
  py_float bi (nth 4 argv "") = Some v2 ->
  ~ (valid_age age /\ valid_gender (nth 2 argv "")) ->
  ((6 <= List.length argv)%nat -> py_float bi (nth 5 argv "") <> None) ->
  exists msg hf,
    ((~ valid_age age /\ msg = age_error) \/
     (valid_age age /\ ~ valid_gender (nth 2 argv "") /\ msg = gender_error)) /\
    (((List.length argv < 6)%nat /\ hf = []) \/
     ((6 <= List.length argv)%nat /\ hf = [Result (Message msg)])) /\
    main_cli bi st argv =
      ([Text "HRV Percentile Calculator"; Text (str_mul "=" 25);
        Result (Message msg); Result (Message msg)]
       ++ hf
       ++ [Text (newline ++ "5th Percentile Values:"); Text (str_mul "-" 25)])%list.
Proof.
  intros Hage Hv1 Hv2 Hbad Hhf.
  assert (Hmsg : exists msg,
            ((~ valid_age age /\ msg = age_error) \/
             (valid_age age /\ ~ valid_gender (nth 2 argv "") /\ msg = gender_error)) /\
            forall m v, valid_metric m ->
              get_hrv_percentile st age (nth 2 argv "") m v = Return (Message msg)).
  { destruct (valid_age_dec age) as [Hvalid | Hinvalid].
    - exists gender_error. split; [right; tauto |].
      intros m v Hm.
      destruct (get_hrv_percentile_canonical st age (nth 2 argv "") m v Hm)
        as [(H & _) | [(_ & _ & H) | (_ & H & _)]]; tauto.
    - exists age_error. split; [left; tauto |].
      intros m v Hm.
      destruct (get_hrv_percentile_canonical st age (nth 2 argv "") m v Hm)
        as [(_ & H) | [(H & _) | (H & _)]]; tauto. }
  destruct Hmsg as (msg & Hwhich & Hcall).
  pose proof (fifth_percentile_section_invalid st age (nth 2 argv "") Hbad) as Hsec.
  exists msg.
  unfold main_cli.
  rewrite (cli_body_parsed bi st argv age v1 v2 _ _ _ Hage Hv1 Hv2
             (Hcall "sdNN" v1 valid_metric_sdNN)
             (Hcall "RMSSD" v2 valid_metric_RMSSD) Hsec).
  destruct (6 <=? List.length argv)%nat eqn:Hlen.
  - apply Nat.leb_le in Hlen.
    destruct (py_float bi (nth 5 argv "")) as [v3 |] eqn:Hv3;
      [| now contradiction (Hhf Hlen)].
    rewrite (Hcall "HF" v3 valid_metric_HF).
    exists [Result (Message msg)].
    split; [exact Hwhich |]. split; [right; auto | reflexivity].
  - apply Nat.leb_gt in Hlen.
    exists []. split; [exact Hwhich |]. split; [left; auto | reflexivity].
Qed.

(** *** Input that ends before "done" *)

Lemma read_metrics_eof (bi : builtins) (n : nat) :
  forall stdin acc,
    (List.length stdin <= n)%nat ->
    Forall (not_done bi) stdin ->
    exists o,
      read_metrics bi acc stdin = (o, [], Stop EOFError) /\
      Forall prompt_or_text o.
Proof.
  induction n as [| n IH]; intros stdin acc Hlen Hlines.
  - destruct stdin; [| cbn in Hlen; lia].
    eexists. split; [reflexivity | repeat constructor].
  - destruct stdin as [| line rest].
    { eexists. split; [reflexivity | repeat constructor]. }
    inversion Hlines as [| ? ? Hline Hrest]; subst.
    cbn [List.length] in Hlen. cbn [read_metrics].
    unfold not_done in Hline. apply String.eqb_neq in Hline. rewrite Hline.
    destruct (nonempty (strip bi line)).
    + destruct rest as [| answer rest'].
      { eexists. split; [reflexivity | repeat constructor]. }
      inversion Hrest as [| ? ? _ Hrest']; subst. cbn [List.length] in Hlen.
      destruct (py_float bi answer) as [value |].
      * destruct (IH rest' (acc ++ [(strip bi line, value)])%list) as (o & -> & Ho);
          [lia | assumption |].
        eexists. split; [reflexivity | repeat constructor; assumption].
      * destruct (IH rest' acc) as (o & -> & Ho); [lia | assumption |].
        eexists. split; [reflexivity | repeat constructor; assumption].
    + destruct (IH rest acc) as (o & -> & Ho); [lia | assumption |].
      eexists. split; [reflexivity | repeat constructor; assumption].
Qed.

Lemma interactive_input_ends (bi : builtins) (st : scipy_stats)
    (age_line gender_line : string) (lines : list string) (age : Z) :
  py_int bi age_line = Some age ->
  Forall (not_done bi) lines ->
  exists o,
    Forall prompt_or_text o /\
    main_interactive bi st (age_line :: gender_line :: lines) =
      (interactive_heading ++ [Prompt age_prompt; Prompt gender_prompt]
       ++ metrics_help ++ o ++ [ErrorLine EOFError])%list.
Proof.
  intros Hage Hlines.
  destruct (read_metrics_eof bi (List.length lines) lines [] (Nat.le_refl _) Hlines)
    as (o & Hread & Ho).
  exists o. split; [exact Ho |].
  unfold main_interactive, interactive_body. rewrite Hage, Hread.
  cbn [app]. rewrite <- ?app_assoc. reflexivity.
Qed.

(** ** The entry block as a whole *)

Lemma main_command_line (bi : builtins) (st : scipy_stats)
    (argv stdin : list string) :
  (5 <= List.length argv)%nat -> main bi st argv stdin = main_cli bi st argv.
Proof.
  intros Hlen. unfold main. apply Nat.leb_le in Hlen. now rewrite Hlen.
Qed.

Lemma main_no_arguments (bi : builtins) (st : scipy_stats)
    (argv stdin : list string) :
  (List.length argv < 5)%nat -> main bi st argv stdin = main_interactive bi st stdin.
Proof.
  intros Hlen. unfold main. apply Nat.leb_gt in Hlen. now rewrite Hlen.
Qed.

(** X14.  Run with four arguments or more, the program never prints "An
    error occurred": the command-line branch calls the functions with the
    fixed metric names sdNN, RMSSD and HF, for which [get_hrv_percentile]
    and [get_5th_percentile_value] do not raise, so the only exception its
    [try] block can see is the [ValueError] of an argument that does not
    parse. *)
Theorem main_cli_never_error_line (bi : builtins) (st : scipy_stats)
    (argv stdin : list string) (s : signal) :
  (5 <= List.length argv)%nat ->
  ~ In (ErrorLine s) (main bi st argv stdin).
Proof.
  intros Hlen. rewrite (main_command_line bi st argv stdin Hlen).
  apply cli_never_error_line.
Qed.

Lemma main_cli_never_error_line_witness :
  ~ In (ErrorLine (Exc TypeError))
       (main reference_builtins reference_stats
          ["hrv_analysis.py"; "30"; "male"; "50"; "36"] []).
Proof.
  apply main_cli_never_error_line. cbn. lia.
Defined.

(** X15.  The command-line branch converts its numeric arguments lazily.
    If the age, sdNN or RMSSD argument does not parse, the program prints
    only the numeric-values error and the usage line.  If those parse but
    the optional HF argument does not, the title and the sdNN and RMSSD
    results have already been printed when the same two lines follow, and
    the 5th-percentile section is skipped. *)
Theorem main_cli_unparsable_argument (bi : builtins) (st : scipy_stats)
    (argv stdin : list string) :
  (5 <= List.length argv)%nat ->
  (py_int bi (nth 1 argv "") = None \/
   py_float bi (nth 3 argv "") = None \/
   py_float bi (nth 4 argv "") = None ->
   main bi st argv stdin =
     [Text "Error: Please provide valid numeric values"; Text usage]) /\
  (forall age v1 v2,
     py_int bi (nth 1 argv "") = Some age ->
     py_float bi (nth 3 argv "") = Some v1 ->
     py_float bi (nth 4 argv "") = Some v2 ->
     (6 <= List.length argv)%nat ->
     py_float bi (nth 5 argv "") = None ->
     exists res1 res2,
       get_hrv_percentile st age (nth 2 argv "") "sdNN" v1 = Return res1 /\
       get_hrv_percentile st age (nth 2 argv "") "RMSSD" v2 = Return res2 /\
       main bi st argv stdin =
         [Text "HRV Percentile Calculator"; Text (str_mul "=" 25);
          Result res1; Result res2;
          Text "Error: Please provide valid numeric values"; Text usage]).
Proof.
  intros Hlen. rewrite (main_command_line bi st argv stdin Hlen).
  apply cli_unparsable_argument.
Qed.

Lemma main_cli_unparsable_argument_witness :
  main reference_builtins reference_stats
    ["hrv_analysis.py"; "thirty"; "male"; "50"; "36"] [] =
    [Text "Error: Please provide valid numeric values"; Text usage] /\
  exists res1 res2,
    main reference_builtins reference_stats
      ["hrv_analysis.py"; "30"; "male"; "50"; "36"; "high"] [] =
      [Text "HRV Percentile Calculator"; Text (str_mul "=" 25);
       Result res1; Result res2;
       Text "Error: Please provide valid numeric values"; Text usage].
Proof.
  split.
  - apply (main_cli_unparsable_argument reference_builtins reference_stats
             ["hrv_analysis.py"; "thirty"; "male"; "50"; "36"] []).
    + cbn. lia.
    + left. reflexivity.
  - destruct (main_cli_unparsable_argument reference_builtins reference_stats
                ["hrv_analysis.py"; "30"; "male"; "50"; "36"; "high"] [])
      as (_ & Hhf).
    + cbn. lia.
    + destruct (Hhf 30%Z (IZR 50) (IZR 36) eq_refl eq_refl eq_refl)
        as (res1 & res2 & _ & _ & Hout).
      * cbn. lia.
      * reflexivity.
      * exists res1, res2. exact Hout.
Defined.

(** X16.  With arguments that parse, an age in range and a valid gender,
    the program prints the title, the report for sdNN, the report for
    RMSSD, the report for HF when a fifth argument is given, and then the
    5th-percentile section with its sdNN and RMSSD lines; the HF 5th
    percentile is computed but not printed, even when an HF value was
    supplied.  (With [norm.ppf(0.05)] in (-1.645, -1.644).) *)
Theorem main_cli_valid_input (bi : builtins) (st : scipy_stats)
    (argv stdin : list string) (age : Z) (v1 v2 : R) :
  (5 <= List.length argv)%nat ->
  ppf_5th_approx st ->
  py_int bi (nth 1 argv "") = Some age ->
  py_float bi (nth 3 argv "") = Some v1 ->
  py_float bi (nth 4 argv "") = Some v2 ->
  valid_age age -> valid_gender (nth 2 argv "") ->
  ((6 <= List.length argv)%nat -> py_float bi (nth 5 argv "") <> None) ->
  exists r1 r2 x y hf,
    get_hrv_percentile st age (nth 2 argv "") "sdNN" v1 = Return (Report r1) /\
    get_hrv_percentile st age (nth 2 argv "") "RMSSD" v2 = Return (Report r2) /\
    get_5th_percentile_value st age (nth 2 argv "") "sdNN" = Return (Some x) /\
    get_5th_percentile_value st age (nth 2 argv "") "RMSSD" = Return (Some y) /\
    main bi st argv stdin =
      ([Text "HRV Percentile Calculator"; Text (str_mul "=" 25);
        Result (Report r1); Result (Report r2)]
       ++ hf
       ++ [Text (newline ++ "5th Percentile Values:"); Text (str_mul "-" 25);
           Fifth "sdNN" x; Fifth "RMSSD" y])%list /\
    (((List.length argv < 6)%nat /\ hf = []) \/
     ((6 <= List.length argv)%nat /\
      exists v3 r3,
        py_float bi (nth 5 argv "") = Some v3 /\
        get_hrv_percentile st age (nth 2 argv "") "HF" v3 = Return (Report r3) /\
        hf = [Result (Report r3)])).
Proof.
  intros Hlen. rewrite (main_command_line bi st argv stdin Hlen).
  apply cli_valid_input.
Qed.

Lemma main_cli_valid_input_witness :
  exists r1 r2 r3 x y,
    main reference_builtins reference_stats
      ["hrv_analysis.py"; "30"; "male"; "50"; "36"; "100"] [] =
      [Text "HRV Percentile Calculator"; Text (str_mul "=" 25);
       Result (Report r1); Result (Report r2); Result (Report r3);
       Text (newline ++ "5th Percentile Values:"); Text (str_mul "-" 25);
       Fifth "sdNN" x; Fifth "RMSSD" y].
Proof.
  destruct (main_cli_valid_input reference_builtins reference_stats
              ["hrv_analysis.py"; "30"; "male"; "50"; "36"; "100"] []
              30%Z (IZR 50) (IZR 36))
    as (r1 & r2 & x & y & hf & _ & _ & _ & _ & Hout & [(Hlen & _) | (_ & v3 & r3 & _ & _ & Hhf)]).
  - cbn. lia.
  - exact reference_stats_ppf_5th.
  - reflexivity.
  - reflexivity.
  - reflexivity.
  - unfold valid_age. lia.
  - left. reflexivity.
  - intros _. discriminate.
  - cbn in Hlen. lia.
  - exists r1, r2, r3, x, y. rewrite Hout, Hhf. reflexivity.
Defined.

(** X21.  With arguments that parse but an age out of range or an invalid
    gender, the program prints the same message once per supplied metric
    (the age message when the age is out of range, the gender message
    otherwise) and then the title lines of the 5th-percentile section with
    nothing under them. *)
Theorem main_cli_invalid_age_or_gender (bi : builtins) (st : scipy_stats)
    (argv stdin : list string) (age : Z) (v1 v2 : R) :
  (5 <= List.length argv)%nat ->
  py_int bi (nth 1 argv "") = Some age ->
  py_float bi (nth 3 argv "") = Some v1 ->
  py_float bi (nth 4 argv "") = Some v2 ->
  ~ (valid_age age /\ valid_gender (nth 2 argv "")) ->
  ((6 <= List.length argv)%nat -> py_float bi (nth 5 argv "") <> None) ->
  exists msg hf,
    ((~ valid_age age /\ msg = age_error) \/
     (valid_age age /\ ~ valid_gender (nth 2 argv "") /\ msg = gender_error)) /\
    (((List.length argv < 6)%nat /\ hf = []) \/
     ((6 <= List.length argv)%nat /\ hf = [Result (Message msg)])) /\
    main bi st argv stdin =
      ([Text "HRV Percentile Calculator"; Text (str_mul "=" 25);
        Result (Message msg); Result (Message msg)]
       ++ hf
       ++ [Text (newline ++ "5th Percentile Values:"); Text (str_mul "-" 25)])%list.
Proof.
  intros Hlen. rewrite (main_command_line bi st argv stdin Hlen).
  apply cli_invalid_age_or_gender.
Qed.

Lemma main_cli_invalid_age_or_gender_witness :
  main reference_builtins reference_stats
    ["hrv_analysis.py"; "80"; "male"; "50"; "36"] [] =
    [Text "HRV Percentile Calculator"; Text (str_mul "=" 25);
     Result (Message age_error); Result (Message age_error);
     Text (newline ++ "5th Percentile Values:"); Text (str_mul "-" 25)].
Proof.
  destruct (main_cli_invalid_age_or_gender reference_builtins reference_stats
              ["hrv_analysis.py"; "80"; "male"; "50"; "36"] []
              80%Z (IZR 50) (IZR 36))
    as (msg & hf & [(_ & Hmsg) | (Hvalid & _)] & [(_ & Hhf) | (Hlen & _)] & Hout).
  - cbn. lia.
  - reflexivity.
  - reflexivity.
  - reflexivity.
  - unfold valid_age. lia.
  - cbn. lia.
  - rewrite Hout, Hmsg, Hhf. reflexivity.
  - cbn in Hlen. lia.
  - unfold valid_age in Hvalid. lia.
  - unfold valid_age in Hvalid. lia.
Defined.

(** X18.  Run without arguments, the program is aborted by the metric
    name "n".  With an age in range and a valid gender, if "n" is among the
    collected metrics, the results of the metrics entered before it are
    printed, then "An error occurred" with the [TypeError]; the results of
    the metrics entered after it and the whole 5th-percentile section are
    lost. *)
Theorem main_interactive_n_aborts (bi : builtins) (st : scipy_stats)
    (argv : list string)
    (age_line gender_line done_line : string)
    (exchanges : list (string * string)) (rest : list string)
    (age : Z) (before after : list (string * R)) (v : R) :
  (List.length argv < 5)%nat ->
  py_int bi age_line = Some age ->
  valid_age age -> valid_gender (strip bi gender_line) ->
  Forall (names_metric bi) exchanges ->
  lower (strip bi done_line) = "done" ->
  flat_map (collected bi) exchanges = (before ++ ("n", v) :: after)%list ->
  ~ In "n" (map fst before) ->
  exists results,
    results_of st age (strip bi gender_line) before results /\
    main bi st argv (session age_line gender_line exchanges done_line rest) =
      (interactive_heading ++ session_asked bi exchanges ++ results_heading
       ++ map Result results ++ [ErrorLine (Exc TypeError)])%list.
Proof.
  intros Hlen. rewrite (main_no_arguments bi st argv _ Hlen).
  apply interactive_n_aborts.
Qed.

Lemma main_interactive_n_aborts_witness :
  exists res,
    main reference_builtins reference_stats ["hrv_analysis.py"]
      ["30"; " Male "; "sdNN"; "50"; "n"; "1"; "HF"; "100"; "done"] =
      (interactive_heading
       ++ session_asked reference_builtins [("sdNN", "50"); ("n", "1"); ("HF", "100")]
       ++ results_heading
       ++ [Result res; ErrorLine (Exc TypeError)])%list.
Proof.
  destruct (main_interactive_n_aborts reference_builtins reference_stats
              ["hrv_analysis.py"]
              "30" " Male " "done" [("sdNN", "50"); ("n", "1"); ("HF", "100")] []
              30%Z [("sdNN", IZR 50)] [("HF", IZR 100)] (IZR 1))
    as (results & Hres & Hout).
  - cbn. lia.
  - reflexivity.
  - unfold valid_age. lia.
  - left. reflexivity.
  - repeat constructor; cbn; discriminate.
  - reflexivity.
  - reflexivity.
  - cbn. intros [H | []]. discriminate H.
  - inversion Hres as [| e res before results' Hfirst Hrest]; subst.
    inversion Hrest; subst.
    exists res. exact Hout.
Defined.

(** X19.  Run without arguments, when no collected metric is named "n" (or
    the age or the gender is invalid, so that every call answers with a
    message), the program prints one result per collected metric, in the
    order typed, then the 5th-percentile section, and never "An error
    occurred". *)
Theorem main_interactive_results (bi : builtins) (st : scipy_stats)
    (argv : list string)
    (age_line gender_line done_line : string)
    (exchanges : list (string * string)) (rest : list string) (age : Z) :
  (List.length argv < 5)%nat ->
  py_int bi age_line = Some age ->
  Forall (names_metric bi) exchanges ->
  lower (strip bi done_line) = "done" ->
  flat_map (collected bi) exchanges <> [] ->
  ~ In "n" (map fst (flat_map (collected bi) exchanges)) \/
    ~ (valid_age age /\ valid_gender (strip bi gender_line)) ->
  exists results section,
    results_of st age (strip bi gender_line)
      (flat_map (collected bi) exchanges) results /\
    fifth_percentile_section st age (strip bi gender_line) = (section, Done tt) /\
    (forall s, ~ In (ErrorLine s) section) /\
    main bi st argv (session age_line gender_line exchanges done_line rest) =
      (interactive_heading ++ session_asked bi exchanges ++ results_heading
       ++ map Result results ++ section)%list.
Proof.
  intros Hlen. rewrite (main_no_arguments bi st argv _ Hlen).
  apply interactive_results.
Qed.

Lemma main_interactive_results_witness :
  exists res section,
    (forall s, ~ In (ErrorLine s) section) /\
    main reference_builtins reference_stats ["hrv_analysis.py"]
      ["80"; "male"; "n"; "1"; "done"] =
      (interactive_heading
       ++ session_asked reference_builtins [("n", "1")]
       ++ results_heading ++ [Result res] ++ section)%list.
Proof.
  destruct (main_interactive_results reference_builtins reference_stats
              ["hrv_analysis.py"] "80" "male" "done" [("n", "1")] [] 80%Z)
    as (results & section & Hres & _ & Hclean & Hout).
  - cbn. lia.
  - reflexivity.
  - repeat constructor; cbn; discriminate.
  - reflexivity.
  - discriminate.
  - right. unfold valid_age. lia.
  - inversion Hres as [| e res before results' Hfirst Hrest]; subst.
    inversion Hrest; subst.
    exists res, section. split; [exact Hclean | exact Hout].
Defined.

(** X20.  Run without arguments, the program stops early in two ways.  An
    age that does not parse prints "Invalid input. Please enter valid
    numbers for age and HRV values." right after the age prompt, without
    asking for anything else.  A session in which no metric was collected
    (none typed, or every value unparsable) prints "No metrics entered.
    Exiting." after the prompts and nothing more: no results and no
    5th-percentile section. *)
Theorem main_interactive_early_exits (bi : builtins) (st : scipy_stats)
    (argv : list string) :
  (List.length argv < 5)%nat ->
  (forall age_line rest,
     py_int bi age_line = None ->
     main bi st argv (age_line :: rest) =
       (interactive_heading ++
        [Prompt age_prompt;
         Text "Invalid input. Please enter valid numbers for age and HRV values."])%list) /\
  (forall age_line gender_line done_line exchanges rest age,
     py_int bi age_line = Some age ->
     Forall (names_metric bi) exchanges ->
     lower (strip bi done_line) = "done" ->
     flat_map (collected bi) exchanges = [] ->
     main bi st argv (session age_line gender_line exchanges done_line rest) =
       (interactive_heading ++ session_asked bi exchanges
        ++ [Text "No metrics entered. Exiting."])%list).
Proof.
  intros Hlen.
  destruct (interactive_early_exits bi st) as (Hage & Hnone).
  split.
  - intros age_line rest Hparse.
    rewrite (main_no_arguments bi st argv _ Hlen). now apply Hage.
  - intros age_line gender_line done_line exchanges rest age Hparse Hnames Hdone Hempty.
    rewrite (main_no_arguments bi st argv _ Hlen). now apply Hnone with (age := age).
Qed.

Lemma main_interactive_early_exits_witness :
  main reference_builtins reference_stats ["hrv_analysis.py"] ["thirty"; "male"] =
    (interactive_heading ++
     [Prompt age_prompt;
      Text "Invalid input. Please enter valid numbers for age and HRV values."])%list /\
  main reference_builtins reference_stats ["hrv_analysis.py"]
    ["30"; "male"; "sdNN"; "fifty"; "done"] =
    (interactive_heading ++ session_asked reference_builtins [("sdNN", "fifty")]
     ++ [Text "No metrics entered. Exiting."])%list.
Proof.
  destruct (main_interactive_early_exits reference_builtins reference_stats
              ["hrv_analysis.py"]) as (Hage & Hnone).
  - cbn. lia.
  - split.
    + apply Hage. reflexivity.
    + apply (Hnone "30" "male" "done" [("sdNN", "fifty")] [] 30%Z).
      * reflexivity.
      * repeat constructor; cbn; discriminate.
      * reflexivity.
      * reflexivity.
Defined.

(** X22.  Run without arguments, the program reports nothing unless the
    metric loop is closed: when the input ends and no line typed after the
    gender is "done", the run ends with "An error occurred" for the
    [EOFError] of [input], and has printed only prompts and notices, no
    result and no 5th-percentile line, however many metrics and values
    were entered. *)
Theorem main_interactive_input_ends (bi : builtins) (st : scipy_stats)
    (argv : list string)
    (age_line gender_line : string) (lines : list string) (age : Z) :
  (List.length argv < 5)%nat ->
  py_int bi age_line = Some age ->
  Forall (not_done bi) lines ->
  exists o,
    Forall prompt_or_text o /\
    main bi st argv (age_line :: gender_line :: lines) =
      (interactive_heading ++ [Prompt age_prompt; Prompt gender_prompt]
       ++ metrics_help ++ o ++ [ErrorLine EOFError])%list.
Proof.
  intros Hlen. rewrite (main_no_arguments bi st argv _ Hlen).
  apply interactive_input_ends.
Qed.

Lemma main_interactive_input_ends_witness :
  exists o,
    Forall prompt_or_text o /\
    main reference_builtins reference_stats ["hrv_analysis.py"]
      ["30"; "male"; "sdNN"; "50"; "RMSSD"] =
      (interactive_heading ++ [Prompt age_prompt; Prompt gender_prompt]
       ++ metrics_help ++ o ++ [ErrorLine EOFError])%list.
Proof.
  apply (main_interactive_input_ends reference_builtins reference_stats
           ["hrv_analysis.py"] "30" "male" ["sdNN"; "50"; "RMSSD"] 30%Z).
  - cbn. lia.
  - reflexivity.
  - repeat constructor; unfold not_done; cbn; discriminate.
Defined.
